(** * Ivy: sensor ingest, interpretation and dashboard

    A shallow embedding of the three Python modules of the repository

      - [AI/agent.py]   the prompt template and [report],
      - [App/model.py]  the [Data] table,
      - [app.py]        the Flask views [index] and [data],

    together with the fragments of Python the code relies on.  Python
    exceptions are an explicit error monad, the database session is explicit
    state passing, and the services the repository only calls (the language
    model, [json.loads], float parsing and printing, SQLite's parameter
    binding and column affinity) are operations of a [Runtime] interface,
    so that every theorem holds whatever those services answer.  A
    reference runtime makes the development executable.  The prompt object
    is the one the repository builds, [Agent.prompt]; what is proved of the
    application is proved of it. *)

From Stdlib Require Import String Ascii ZArith NArith List Bool Lia.
From Stdlib Require Import Permutation Sorted.
Import ListNotations.
Local Open Scope Z_scope.
Set Warnings "-register-all".

(* ===================================================================== *)
(** * Python values, exceptions and builtins                              *)
(* ===================================================================== *)

Module Py.

(** A Python [str] is a sequence of Unicode code points. *)
Definition pystr := list N.

Definition ch (a : ascii) : N := N_of_ascii a.

(** Literals are written as Rocq strings and decoded from UTF-8. *)
Fixpoint utf8_decode (bs : list N) : pystr :=
  match bs with
  | [] => []
  | b0 :: r0 =>
    if (b0 <? 0x80)%N then b0 :: utf8_decode r0
    else match r0 with
    | [] => [b0]
    | b1 :: r1 =>
      if (b0 <? 0xE0)%N
      then ((b0 - 0xC0) * 0x40 + (b1 - 0x80))%N :: utf8_decode r1
      else match r1 with
      | [] => [b0; b1]
      | b2 :: r2 =>
        if (b0 <? 0xF0)%N
        then ((b0 - 0xE0) * 0x1000 + (b1 - 0x80) * 0x40 + (b2 - 0x80))%N
               :: utf8_decode r2
        else match r2 with
        | [] => [b0; b1; b2]
        | b3 :: r3 =>
          ((b0 - 0xF0) * 0x40000 + (b1 - 0x80) * 0x1000
           + (b2 - 0x80) * 0x40 + (b3 - 0x80))%N :: utf8_decode r3
        end
      end
    end
  end.

Definition lit (s : string) : pystr :=
  utf8_decode (map N_of_ascii (list_ascii_of_string s)).

(** [qlit] is [lit] with the backquote standing for the double quote. *)
Definition qlit (s : string) : pystr :=
  map (fun c => if (c =? 96)%N then 34%N else c) (lit s).

Fixpoint str_eqb (a b : pystr) : bool :=
  match a, b with
  | [], [] => true
  | x :: a', y :: b' => (x =? y)%N && str_eqb a' b'
  | _, _ => false
  end.

(** A Python [float]: the exact value [(-1)^neg * m * 2^e], or one of the
    special values.  Every binary64 number has this form. *)
Inductive pyfloat :=
| FNan
| FInf (neg : bool)
| FFin (neg : bool) (m : N) (e : Z).

(** The values JSON decoding produces. *)
Inductive pyval :=
| PNone
| PBool (b : bool)
| PInt (z : Z)
| PFloat (f : pyfloat)
| PStr (s : pystr)
| PList (l : list pyval)
| PDict (d : list (pystr * pyval)).

Inductive exn :=
| KeyError (key : pystr)
| IndexError
| TypeError
| ValueError
| JSONDecodeError            (* a subclass of ValueError *)
| OverflowError
| AttributeError
| IntegrityError             (* sqlalchemy.exc *)
| ProgrammingError           (* sqlalchemy.exc *)
| HTTPException (code : Z)   (* werkzeug.exceptions *)
| OtherException (name : pystr)
| KeyboardInterrupt          (* BaseException only *)
| SystemExit.                (* BaseException only *)

(** [isinstance(e, Exception)] *)
Definition is_Exception (e : exn) : bool :=
  match e with
  | KeyboardInterrupt | SystemExit => false
  | _ => true
  end.

(** [isinstance(e, ValueError)] *)
Definition is_ValueError (e : exn) : bool :=
  match e with
  | ValueError | JSONDecodeError => true
  | _ => false
  end.

(** [isinstance(e, json.JSONDecodeError)] *)
Definition is_JSONDecodeError (e : exn) : bool :=
  match e with
  | JSONDecodeError => true
  | _ => false
  end.

Inductive result (A : Type) :=
| Return (a : A)
| Raise (e : exn).
Arguments Return {A} a.
Arguments Raise {A} e.

Definition bind {A B} (c : result A) (k : A -> result B) : result B :=
  match c with
  | Return a => k a
  | Raise e => Raise e
  end.

(** [try: c  except cls: h] *)
Definition try_except {A} (c : result A) (cls : exn -> bool)
    (h : exn -> result A) : result A :=
  match c with
  | Return a => Return a
  | Raise e => if cls e then h e else Raise e
  end.

Definition of_option {A} (o : option A) (e : exn) : result A :=
  match o with
  | Some a => Return a
  | None => Raise e
  end.

Declare Scope py_scope.
Delimit Scope py_scope with py.
Notation "x <- c ;; k" := (bind c (fun x => k))
  (at level 61, c at next level, right associativity) : py_scope.
Local Open Scope py_scope.

(** What the repository calls but does not define. *)
Class Runtime := {
  (** [json.loads(s)] for a [str] *)
  json_loads : pystr -> result pyval;
  (** [float(n)] for an [int]; [None] is OverflowError *)
  float_of_int : Z -> option pyfloat;
  (** [float(s)] for a [str]; [None] is ValueError *)
  float_of_str : pystr -> option pyfloat;
  (** [int(s)] for a [str]; [None] is ValueError *)
  int_of_str : pystr -> option Z;
  (** [round(x, ndigits)] for a [float] *)
  py_round : pyfloat -> Z -> pyfloat;
  (** [str(x)] for a [float] *)
  float_repr : pyfloat -> pystr;
  (** [str.format] on a replacement field that was resolved to a float and
      carries an accessor, a conversion or a format spec *)
  format_field : pyfloat -> pystr -> option N -> pystr -> result pystr;
  (** binding one parameter of an INSERT on the configured back end
      (SQLite); [None] when the value is stored *)
  sql_bind : pyval -> option exn;
  (** what a column declared INTEGER holds, and hands back, once a value
      was bound to it: SQLite converts text and floats that denote an
      integer *)
  sql_integer : pyval -> pyval
}.

Section Builtins.
Context {R : Runtime}.

(** [float(x)] *)
Definition py_float (x : pyval) : result pyfloat :=
  match x with
  | PInt z => of_option (float_of_int z) OverflowError
  | PBool b => Return (FFin false (if b then 1 else 0)%N 0)
  | PFloat f => Return f
  | PStr s => of_option (float_of_str s) ValueError
  | PNone | PList _ | PDict _ => Raise TypeError
  end.

(** [int(f)] on a float discards the fractional part. *)
Definition float_trunc (neg : bool) (m : N) (e : Z) : Z :=
  let mag := if 0 <=? e then Z.of_N m * 2 ^ e else Z.of_N m / 2 ^ (- e) in
  if neg then - mag else mag.

(** [int(x)] *)
Definition py_int (x : pyval) : result Z :=
  match x with
  | PInt z => Return z
  | PBool b => Return (if b then 1 else 0)
  | PFloat FNan => Raise ValueError
  | PFloat (FInf _) => Raise OverflowError
  | PFloat (FFin neg m e) => Return (float_trunc neg m e)
  | PStr s => of_option (int_of_str s) ValueError
  | PNone | PList _ | PDict _ => Raise TypeError
  end.

End Builtins.

Definition is_digit (c : N) : bool := ((48 <=? c) && (c <=? 57))%N.

(** The decimal digits of Unicode come in runs of ten, zero to nine; these
    are the code points of the zeros (Unicode 14, the version of
    CPython 3.11). *)
Definition decimal_zeros : list N :=
  [48; 1632; 1776; 1984; 2406; 2534; 2662; 2790; 2918; 3046; 3174; 3302;
   3430; 3558; 3664; 3792; 3872; 4160; 4240; 6112; 6160; 6470; 6608; 6784;
   6800; 6992; 7088; 7232; 7248; 42528; 43216; 43264; 43472; 43504; 43600;
   44016; 65296; 66720; 68912; 69734; 69872; 69942; 70096; 70384; 70736;
   70864; 71248; 71360; 71472; 71904; 72016; 72784; 73040; 73120; 92768;
   92864; 93008; 120782; 120792; 120802; 120812; 120822; 123200; 123632;
   125264; 130032]%N.

(** [Py_UNICODE_TODECIMAL]: the value of a decimal digit of any script. *)
Definition to_decimal (c : N) : option N :=
  match find (fun z => (z <=? c) && (c <=? z + 9))%N decimal_zeros with
  | Some z => Some (c - z)%N
  | None => None
  end.

Fixpoint starts (w s : pystr) : bool :=
  match w, s with
  | [], _ => true
  | x :: w', y :: s' => (x =? y)%N && starts w' s'
  | _ :: _, [] => false
  end.

(** [w in s] *)
Fixpoint contains (w s : pystr) : bool :=
  starts w s ||
  match s with
  | [] => false
  | _ :: s' => contains w s'
  end.

(** [c.isspace()] *)
Definition isspace (c : N) : bool :=
  ((0x9 <=? c) && (c <=? 0xD) || (0x1C <=? c) && (c <=? 0x20)
   || (c =? 0x85) || (c =? 0xA0) || (c =? 0x1680)
   || (0x2000 <=? c) && (c <=? 0x200A)
   || (c =? 0x2028) || (c =? 0x2029) || (c =? 0x202F) || (c =? 0x205F)
   || (c =? 0x3000))%N.

Fixpoint lstrip (s : pystr) : pystr :=
  match s with
  | [] => []
  | c :: t => if isspace c then lstrip t else s
  end.

Definition rstrip (s : pystr) : pystr := rev (lstrip (rev s)).

(** [s.strip()] *)
Definition strip (s : pystr) : pystr := rstrip (lstrip s).

(** [x.strip()] on an arbitrary value: only [str] has the method. *)
Definition strip_method (x : pyval) : result pystr :=
  match x with
  | PStr s => Return (strip s)
  | _ => Raise AttributeError
  end.

Fixpoint dict_get (key : pystr) (d : list (pystr * pyval)) : option pyval :=
  match d with
  | [] => None
  | (k, v) :: d' => if str_eqb key k then Some v else dict_get key d'
  end.

(** [x[key]] with a [str] key *)
Definition getitem (x : pyval) (key : pystr) : result pyval :=
  match x with
  | PDict d => of_option (dict_get key d) (KeyError key)
  | _ => Raise TypeError
  end.

End Py.

(* ===================================================================== *)
(** * AI/agent.py                                                         *)
(* ===================================================================== *)

Module Agent.
Import Py.
Local Open Scope py_scope.

(** The model object: [llm.invoke(prompt)] answers with a [str] or raises. *)
Record LLM := { invoke : pystr -> result pystr }.

(** Keyword arguments of [prompt.format]: the three rounded floats, under
    names that are Python identifiers. *)
Definition kwargs := list (pystr * pyfloat).

Fixpoint kw_get (key : pystr) (kw : kwargs) : option pyfloat :=
  match kw with
  | [] => None
  | (k, v) :: kw' => if str_eqb key k then Some v else kw_get key kw'
  end.

(** A prompt object: all [report] uses of it is its [format] method. *)
Record PromptTemplate := { format : kwargs -> result pystr }.

Definition unlines (ls : list pystr) : pystr :=
  concat (map (fun l => l ++ [10%N]) ls).

(** The lines of the template between the opening and the closing triple
    quote, character for character as the source file has them.  In the
    literals the backquote stands for the double quote. *)
Definition PROMPT_LINES : list pystr := [
    qlit "    You are an advanced environmental intelligence agent: an expert storyteller and analyst who";
    qlit "    turns raw sensor inputs into a short, vivid, and useful human-friendly micro-report.";
    [];
    qlit "    INPUTS";
    qlit "    -------";
    qlit "    Temperature (Â°C): {Temp}";
    qlit "    Humidity (%): {Humid}";
    qlit "    Distance/Proxy (meters): {Proxy}";
    [];
    qlit "    INSTRUCTIONS TO THE AGENT";
    qlit "    -------------------------";
    qlit "        1. Perform your internal reasoning (do not output any chain-of-thought or stepwise reasoning).";
    qlit "        2. Produce a concise, high-creativity textual micro-report in natural language (no more than 2(if possible, just a single) short sentences).";
    qlit "            - The text should avoid formulas and long technical paragraphs.";
    qlit "            - It should sound fresh and human (a little poetic allowed), and you may include 1-2 emojis.";
    qlit "        3. Then provide one short, actionable recommendation.";
    qlit "        4. At the end provide a numeric confidence score (0-100) representing how certain you are about the interpretation.";
    qlit "        5. **Output MUST be valid JSON only** with exactly these keys:";
    qlit "            - `text`: string (the creative micro-report)";
    qlit "            - `recommendation`: string (short actionable sentence)";
    qlit "            - `confidence`: integer (0-100)";
    qlit "        6. Do NOT include any extra commentary, delimiters, or markdown â€” only the JSON.";
    [];
    qlit "    CONTEXT / TONE";
    qlit "    --------------";
    qlit "    - Make the report vivid, helpful, and professional.";
    qlit "    - Keep length short: aim for a total of around 1-3 sentences in `text`.";
    qlit "    - Use emojis sparingly to convey tone (e.g., ðŸŒ¡ï¸, ðŸ’§, ðŸ§­, âš ï¸).";
    [];
    qlit "    EXAMPLE (not actual output; for style only and format)";
    qlit "    {`text`: `Warm breeze rolling in, humidity low enough for crisp air â€” sensors show a mild thermal spike. ðŸŒ¡ï¸`, `recommendation`: `If outdoors, hydrate and avoid direct sun for 30 minutes.`, `confidence`: 86}";
    qlit "    {`text`: `The air feels heavy with warmth and dampness, a humid cloak settling around everything ðŸŒ¡ï¸ðŸ’§`, `recommendation`: `Keep hydrated and avoid extended outdoor activity in direct sunlight. `, `confidence`:`90`}";
    [];
    qlit "    Now produce JSON for the given inputs."
  ].

Definition PROMPT_TEMPLATE : pystr := 10%N :: unlines PROMPT_LINES.

(** ** Format strings

    [PromptTemplate.format] hands the template to [string.Formatter]: the
    text is scanned once, left to right; literal text is copied, a doubled
    brace stands for one brace, and a replacement field is looked up and
    rendered as soon as its closing brace is read.  The scanner is a state
    machine over the characters. *)

Inductive fstate :=
| SLit                                   (* literal text *)
| SOpen                                  (* one opening brace was read *)
| SClose                                 (* one closing brace was read *)
| SName (name : pystr)                   (* in a field name *)
| SNameBr (name : pystr)                 (* in [...] of a field name *)
| SBang (name : pystr)                   (* after ! *)
| SConv (name : pystr) (conv : N)        (* after the conversion character *)
| SSpec (name : pystr) (conv : option N) (depth : nat) (spec : pystr).

Definition c_open : N := ch "{".
Definition c_close : N := ch "}".
Definition c_colon : N := ch ":".
Definition c_bang : N := ch "!".
Definition c_lbr : N := ch "[".
Definition c_rbr : N := ch "]".
Definition c_dot : N := ch ".".

(** The first component of a field name: up to the first [.] or [[]. *)
Fixpoint field_first (name : pystr) : pystr * pystr :=
  match name with
  | [] => ([], [])
  | c :: t =>
    if ((c =? c_dot) || (c =? c_lbr))%N then ([], name)
    else let (a, b) := field_first t in (c :: a, b)
  end.

(** How the formatter takes the first component of a field name: as the
    key of a keyword argument, or, when it consists of decimal digits (of
    any script), as the index of a positional one. *)
Inductive field_key :=
| Keyword
| Positional (index : N)
| TooManyDigits.

Definition PY_SSIZE_T_MAX : N := (2 ^ 63 - 1)%N.

(** The digits are read from the left; an index beyond [PY_SSIZE_T_MAX]
    is refused as soon as it is reached. *)
Fixpoint get_integer_from (s : pystr) (acc : N) : field_key :=
  match s with
  | [] => Positional acc
  | c :: t =>
    match to_decimal c with
    | None => Keyword
    | Some d =>
      if ((PY_SSIZE_T_MAX - d) / 10 <? acc)%N then TooManyDigits
      else get_integer_from t (acc * 10 + d)%N
    end
  end.

Definition get_integer (s : pystr) : field_key :=
  match s with
  | [] => Keyword
  | _ => get_integer_from s 0
  end.

Section Formatter.
Context {R : Runtime}.

(** Resolving and rendering one replacement field.  No positional
    arguments are passed, so an empty or numeric name has nothing to
    index; any other name is the key of a keyword argument. *)
Definition render_field (kw : kwargs) (name : pystr) (conv : option N)
    (spec : pystr) : result pystr :=
  match name with
  | [] => Raise IndexError
  | _ =>
    let (first, rest) := field_first name in
    match get_integer first with
    | TooManyDigits => Raise ValueError
    | Positional _ => Raise IndexError
    | Keyword =>
      match kw_get first kw with
      | None => Raise (KeyError first)
      | Some v =>
        match rest, conv, spec with
        | [], None, [] => Return (float_repr v)
        | _, _, _ => format_field v rest conv spec
        end
      end
    end
  end.

(** Field names and specs are accumulated in reverse, as is the output. *)
Definition emit (kw : kwargs) (name : pystr) (conv : option N) (spec : pystr)
    (out : pystr) : result (fstate * pystr) :=
  txt <- render_field kw (rev name) conv (rev spec) ;;
  Return (SLit, rev_append txt out).

Definition step_name (kw : kwargs) (name out : pystr) (c : N)
    : result (fstate * pystr) :=
  if (c =? c_open)%N then Raise ValueError
  else if (c =? c_lbr)%N then Return (SNameBr (c :: name), out)
  else if (c =? c_close)%N then emit kw name None [] out
  else if (c =? c_colon)%N then Return (SSpec name None 1 [], out)
  else if (c =? c_bang)%N then Return (SBang name, out)
  else Return (SName (c :: name), out).

Definition step (kw : kwargs) (st : fstate) (out : pystr) (c : N)
    : result (fstate * pystr) :=
  match st with
  | SLit =>
    if (c =? c_open)%N then Return (SOpen, out)
    else if (c =? c_close)%N then Return (SClose, out)
    else Return (SLit, c :: out)
  | SOpen =>
    if (c =? c_open)%N then Return (SLit, c :: out)
    else step_name kw [] out c
  | SClose =>
    if (c =? c_close)%N then Return (SLit, c :: out)
    else Raise ValueError
  | SName name => step_name kw name out c
  | SNameBr name =>
    if (c =? c_rbr)%N then Return (SName (c :: name), out)
    else Return (SNameBr (c :: name), out)
  | SBang name => Return (SConv name c, out)
  | SConv name conv =>
    if (c =? c_close)%N then emit kw name (Some conv) [] out
    else if (c =? c_colon)%N then Return (SSpec name (Some conv) 1 [], out)
    else Raise ValueError
  | SSpec name conv depth spec =>
    if (c =? c_open)%N then Return (SSpec name conv (S depth) (c :: spec), out)
    else if (c =? c_close)%N then
      match depth with
      | 1%nat | 0%nat => emit kw name conv spec out
      | S d => Return (SSpec name conv d (c :: spec), out)
      end
    else Return (SSpec name conv depth (c :: spec), out)
  end.

(** At the end of the string only literal text is complete. *)
Definition finish (st : fstate) (out : pystr) : result pystr :=
  match st with
  | SLit => Return (rev out)
  | _ => Raise ValueError
  end.

Fixpoint run (kw : kwargs) (st : fstate) (out : pystr) (s : pystr)
    : result pystr :=
  match s with
  | [] => finish st out
  | c :: s' =>
    match step kw st out c with
    | Return (st', out') => run kw st' out' s'
    | Raise e => Raise e
    end
  end.

(** [template.format] applied to the keyword arguments [kw] *)
Definition vformat (template : pystr) (kw : kwargs) : result pystr :=
  run kw SLit [] template.

(** [prompt = PromptTemplate(input_variables=["Temp", "Humid", "Proxy"],
    template=PROMPT_TEMPLATE)] *)
Definition prompt : PromptTemplate :=
  {| format := vformat PROMPT_TEMPLATE |}.

(** [report] reads the module globals [prompt] and [llm]; here they are
    its first two arguments.  It returns the whole answer of the model (its
    docstring speaks of the text field only). *)
Definition report (prompt : PromptTemplate) (llm : LLM)
    (temp humid proxy : pyval) : result pystr :=
  temp <- (x <- py_float temp ;; Return (py_round x 2)) ;;
  humid <- (x <- py_float humid ;; Return (py_round x 2)) ;;
  proxy <- (x <- py_float proxy ;; Return (py_round x 2)) ;;
  prompt_ <- format prompt [(lit "Temp", temp); (lit "Humid", humid);
                            (lit "Proxy", proxy)] ;;
  try_except
    (resp <- invoke llm prompt_ ;;
     try_except
       (_ <- json_loads resp ;; Return resp)
       is_JSONDecodeError (fun _ => Return resp))
    is_Exception (fun _ => Return (lit "Error.")).

End Formatter.

End Agent.


(* ===================================================================== *)
(** * App/model.py                                                        *)
(* ===================================================================== *)

Module Model.
Import Py.
Local Open Scope py_scope.

(** A row of table [data]. *)
Record Data := {
  id : Z;          (* Integer, primary_key=True *)
  Temp : Z;        (* Integer, nullable=False *)
  Humid : Z;       (* Integer, nullable=False *)
  Proxy : Z;       (* Integer, nullable=False *)
  Resp : pystr;    (* String(500), nullable=False *)
  Sugg : pystr;    (* String(500), nullable=False *)
  Confid : pyval;  (* Integer, nullable=False *)
  Time : Z         (* DateTime, server_default=func.now() *)
}.

(** The transient object built by the constructor call: the key and the
    time stamp are assigned by the database. *)
Record Data_new := {
  new_Temp : Z;
  new_Humid : Z;
  new_Proxy : Z;
  new_Resp : pystr;
  new_Sugg : pystr;
  new_Confid : pyval
}.

(** The table, in insertion order. *)
Definition Store := list Data.

(** The largest key in use; 0 stands for none. *)
Definition max_id (db : Store) : Z :=
  match db with
  | [] => 0
  | r :: t => fold_right (fun x acc => Z.max (id x) acc) (id r) t
  end.

(** An integer primary key of SQLite: 1 in an empty table, otherwise one
    more than the largest in use. *)
Definition next_id (db : Store) : Z := max_id db + 1.

Section Session.
Context {R : Runtime}.

(** One parameter of the INSERT: the driver binds it, then the NOT NULL
    constraint of the column is checked. *)
Definition bind_param (v : pyval) : result unit :=
  match sql_bind v with
  | Some e => Raise e
  | None =>
    match v with
    | PNone => Raise IntegrityError
    | _ => Return tt
    end
  end.

(** [db.session.add(obj); db.session.commit()]: one INSERT in one
    transaction.  On failure nothing is written.  The integers and the
    strings are stored as they are; [Confid] is whatever Python object the
    answer of the model held, and the INTEGER column keeps what SQLite
    makes of it. *)
Definition add_commit (now : Z) (d : Data_new) (db : Store)
    : result (Data * Store) :=
  _ <- bind_param (PInt (new_Temp d)) ;;
  _ <- bind_param (PInt (new_Humid d)) ;;
  _ <- bind_param (PInt (new_Proxy d)) ;;
  _ <- bind_param (PStr (new_Resp d)) ;;
  _ <- bind_param (PStr (new_Sugg d)) ;;
  _ <- bind_param (new_Confid d) ;;
  let row := {| id := next_id db; Temp := new_Temp d; Humid := new_Humid d;
                Proxy := new_Proxy d; Resp := new_Resp d; Sugg := new_Sugg d;
                Confid := sql_integer (new_Confid d); Time := now |} in
  Return (row, db ++ [row]).

End Session.

(** ** Queries *)

Fixpoint insert_desc (r : Data) (l : list Data) : list Data :=
  match l with
  | [] => [r]
  | x :: t => if id x <=? id r then r :: l else x :: insert_desc r t
  end.

(** [Data.query.order_by(Data.id.desc())] *)
Definition order_by_id_desc (db : Store) : list Data :=
  fold_right insert_desc [] db.

(** [.limit(n)] *)
Definition limit (n : nat) (q : list Data) : list Data := firstn n q.

(** [.first()] *)
Definition first (q : list Data) : option Data := hd_error q.

(** [.all()] *)
Definition all (q : list Data) : list Data := q.

End Model.

(* ===================================================================== *)
(** * app.py                                                              *)
(* ===================================================================== *)

Module App.
Import Py Agent Model.

(** The inbound request, as far as the views look at it. *)
Record Request := { get_json : result pyval }.

Inductive Response :=
| Jsonify (payload : pyval) (status : Z)
| Rendered (template : pystr) (data : option Data) (Items : list Data)
| ErrorPage (status : Z) (cause : exn)
| Aborted (cause : exn).

Definition status_code (r : Response) : option Z :=
  match r with
  | Jsonify _ s => Some s
  | Rendered _ _ _ => Some 200
  | ErrorPage s _ => Some s
  | Aborted _ => None
  end.

(** A view runs against the store and either returns or raises. *)
Definition View (A : Type) := Store -> result (A * Store).

Definition ret {A} (a : A) : View A := fun db => Return (a, db).

Definition lift {A} (c : result A) : View A :=
  fun db => match c with
            | Return a => Return (a, db)
            | Raise e => Raise e
            end.

Definition bindV {A B} (c : View A) (k : A -> View B) : View B :=
  fun db => match c db with
            | Return (a, db') => k a db'
            | Raise e => Raise e
            end.

Declare Scope view_scope.
Delimit Scope view_scope with view.
Notation "x <- c ;; k" := (bindV c (fun x => k))
  (at level 61, c at next level, right associativity) : view_scope.

(** Flask around a view: an exception that escapes becomes an error
    response (the code of an HTTPException, 500 otherwise) and the session
    is discarded; what is not an [Exception] is not answered at all. *)
Definition handle_exception (e : exn) : Response :=
  match e with
  | HTTPException code => ErrorPage code e
  | _ => if is_Exception e then ErrorPage 500 e else Aborted e
  end.

Definition dispatch (view : View Response) (db : Store) : Response * Store :=
  match view db with
  | Return (r, db') => (r, db')
  | Raise e => (handle_exception e, db)
  end.

Section Views.
Context {R : Runtime}.
Variable prompt : PromptTemplate.
Variable llm : LLM.

(** [GET /] *)
Definition index : View Response :=
  fun db =>
    let data := first (order_by_id_desc db) in
    let Items := all (limit 20 (order_by_id_desc db)) in
    Return (Rendered (lit "index.html") data Items, db).

(** [POST /data]; [now] is the clock of the database at the INSERT. *)
Definition data (now : Z) (request : Request) : View Response :=
  (data <- lift (get_json request) ;;
   temp <- lift (getitem data (lit "Temp")) ;;
   humid <- lift (getitem data (lit "Humid")) ;;
   proxy <- lift (getitem data (lit "Proxy")) ;;
   response <- lift (report prompt llm temp humid proxy) ;;
   parsed_resp <- lift (json_loads response) ;;
   text <- lift (x <- getitem parsed_resp (lit "text") ;; strip_method x)%py ;;
   recommendation <-
     lift (x <- getitem parsed_resp (lit "recommendation") ;;
           strip_method x)%py ;;
   confidence <- lift (getitem parsed_resp (lit "confidence")) ;;
   Temp_ <- lift (py_int temp) ;;
   Humid_ <- lift (py_int humid) ;;
   Proxy_ <- lift (py_int proxy) ;;
   let data_ := {| new_Temp := Temp_; new_Humid := Humid_;
                   new_Proxy := Proxy_; new_Resp := text;
                   new_Sugg := recommendation;
                   new_Confid := confidence |} in
   row <- add_commit now data_ ;;
   ret (Jsonify (PDict [(lit "status", PStr (lit "ok"));
                        (lit "id", PInt (id row));
                        (lit "Display", PStr text);
                        (lit "Sugg", PStr recommendation);
                        (lit "Confid", confidence)]) 200))%view.

End Views.

(** One step of the running application: a call, with the clock of the
    database and the behaviour of the provider while it is served. *)
Inductive Call :=
| GET_index
| POST_data (now : Z) (llm : LLM) (request : Request).

Definition serve {R : Runtime} (prompt : PromptTemplate) (c : Call)
    (db : Store) : Response * Store :=
  match c with
  | GET_index => dispatch index db
  | POST_data now llm request => dispatch (data prompt llm now request) db
  end.

(** The stores the application can be in, starting from the empty table. *)
Inductive reachable {R : Runtime} (prompt : PromptTemplate) : Store -> Prop :=
| reach_empty : reachable prompt []
| reach_serve c db :
    reachable prompt db -> reachable prompt (snd (serve prompt c db)).

(** A request that carries [body] with a JSON content type: when the body
    does not decode, [get_json] aborts the request with 400. *)
Definition json_request {R : Runtime} (body : pystr) : Request :=
  {| get_json := try_except (json_loads body) is_ValueError
                   (fun _ => Raise (HTTPException 400)) |}.

End App.

(* ===================================================================== *)
(** * A reference runtime                                                 *)
(* ===================================================================== *)

(** An executable instance of [Runtime]: binary64 arithmetic on exact
    values, the JSON grammar of [json.loads], decimal literals as [int] and
    [float] read them, and SQLite's rules for binding and storing a value.
    It is used to run the code on examples; the general theorems do not
    depend on it. *)

Module Ref.
Import Py.
Local Open Scope py_scope.

(** ** binary64 *)

(** Round-half-even of [num / den]. *)
Definition div_half_even (num den : N) : N :=
  let q := (num / den)%N in
  let r := (num mod den)%N in
  match (2 * r ?= den)%N with
  | Lt => q
  | Gt => (q + 1)%N
  | Eq => if N.even q then q else (q + 1)%N
  end.

(** [n / d] scaled by [2^(-e)], as a fraction. *)
Definition scale2 (n d : N) (e : Z) : N * N :=
  if 0 <=? e then (n, (d * 2 ^ Z.to_N e)%N)
  else ((n * 2 ^ Z.to_N (- e))%N, d).

(** [floor (log2 (n / d))] for [n, d > 0]. *)
Definition log2_ratio (n d : N) : Z :=
  let k := Z.of_N (N.log2 n) - Z.of_N (N.log2 d) in
  let (a, b) := scale2 n d k in
  if (b <=? a)%N then k else k - 1.

(** The binary64 number nearest to [n / d] (ties to even), as mantissa and
    exponent; [None] when it is beyond the largest finite one. *)
Definition b64_round (n d : N) : option (N * Z) :=
  if (n =? 0)%N then Some (0%N, 0)
  else
    let e := Z.max (log2_ratio n d - 52) (-1074) in
    let (a, b) := scale2 n d e in
    let q := div_half_even a b in
    if (971 <? e) || ((e =? 971) && (2 ^ 53 <=? q)%N) then None
    else Some (q, e).

Definition b64 (neg : bool) (n d : N) : pyfloat :=
  match b64_round n d with
  | Some (m, e) => FFin neg m e
  | None => FInf neg
  end.

Definition ref_float_of_int (z : Z) : option pyfloat :=
  match b64_round (Z.abs_N z) 1 with
  | Some (m, e) => Some (FFin (z <? 0) m e)
  | None => None
  end.

(** [round(x, nd)]: the exact value is rounded half-even to [nd] decimal
    places, the result is the nearest binary64 number. *)
Definition ref_round (x : pyfloat) (nd : Z) : pyfloat :=
  match x with
  | FFin neg m e =>
    let (a, b) := scale2 m 1 (- e) in
    if 0 <=? nd then
      let p := (10 ^ Z.to_N nd)%N in
      b64 neg (div_half_even (a * p) b) p
    else
      let p := (10 ^ Z.to_N (- nd))%N in
      b64 neg (div_half_even a (b * p) * p) 1
  | _ => x
  end.

(** Equality of the values [m1 * 2^e1] and [m2 * 2^e2]. *)
Definition dyadic_eqb (m1 : N) (e1 : Z) (m2 : N) (e2 : Z) : bool :=
  let lo := Z.min e1 e2 in
  (m1 * 2 ^ Z.to_N (e1 - lo) =? m2 * 2 ^ Z.to_N (e2 - lo))%N.

(** ** Decimal digits *)

Fixpoint digits_fuel (fuel : nat) (n : N) (acc : pystr) : pystr :=
  match fuel with
  | O => acc
  | S f =>
    let acc' := (48 + n mod 10)%N :: acc in
    if (n <? 10)%N then acc' else digits_fuel f (n / 10)%N acc'
  end.

(** [str(n)] for a natural number *)
Definition digits (n : N) : pystr :=
  digits_fuel (S (N.to_nat (N.log2 n))) n [].

Definition str_of_Z (z : Z) : pystr :=
  if z <? 0 then ch "-" :: digits (Z.abs_N z) else digits (Z.abs_N z).

(** [floor (log10 (n / d))] for [n, d > 0]. *)
Definition log10_ratio (n d : N) : Z :=
  let k := Z.of_nat (length (digits n)) - Z.of_nat (length (digits d)) in
  let ge :=
    if 0 <=? k then (d * 10 ^ Z.to_N k <=? n)%N
    else (d <=? n * 10 ^ Z.to_N (- k))%N in
  if ge then k else k - 1.

(** [n / d] scaled by [10^(-s)], as a fraction. *)
Definition scale10 (n d : N) (s : Z) : N * N :=
  if 0 <=? s then (n, (d * 10 ^ Z.to_N s)%N)
  else ((n * 10 ^ Z.to_N (- s))%N, d).

(** Does the decimal [D * 10^s] read back as [m * 2^e]? *)
Definition reads_back (D : N) (s : Z) (m : N) (e : Z) : bool :=
  let (a, b) := scale10 D 1 (- s) in
  match b64_round a b with
  | Some (m', e') => dyadic_eqb m' e' m e
  | None => false
  end.

(** The decimal with [p] significant digits that reads back as [m * 2^e]
    and is nearest to it, if there is one: digits and exponent of the last
    digit. *)
Definition short_digits (m : N) (e : Z) (p : nat) : option (N * Z) :=
  let (n, d) := scale2 m 1 (- e) in
  let s := log10_ratio n d - Z.of_nat p + 1 in
  let (a, b) := scale10 n d s in
  let lo := (a / b)%N in
  let hi := (lo + 1)%N in
  let r := (a mod b)%N in
  let lo_first :=
    match (2 * r ?= b)%N with
    | Lt => true
    | Gt => false
    | Eq => N.even lo
    end in
  let c1 := if lo_first then lo else hi in
  let c2 := if lo_first then hi else lo in
  if reads_back c1 s m e then Some (c1, s)
  else if reads_back c2 s m e then Some (c2, s)
  else None.

Fixpoint shortest (m : N) (e : Z) (p : nat) (fuel : nat) : N * Z :=
  match fuel with
  | O => (m, 0)
  | S f =>
    match short_digits m e p with
    | Some r => r
    | None => shortest m e (S p) f
    end
  end.

Fixpoint zeros (n : nat) : pystr :=
  match n with
  | O => []
  | S k => 48%N :: zeros k
  end.

Definition pad2 (s : pystr) : pystr :=
  match s with
  | [c] => [48%N; c]
  | _ => s
  end.

(** The layout of [repr]: fixed notation when the decimal point falls
    within the digits or close to them, exponent notation otherwise. *)
Definition layout (ds : pystr) (decpt : Z) : pystr :=
  let n := Z.of_nat (length ds) in
  if (decpt <=? -4) || (16 <? decpt) then
    let mant :=
      match ds with
      | [] => []
      | [c] => [c]
      | c :: t => c :: ch "." :: t
      end in
    let x := decpt - 1 in
    mant ++ [ch "e"; if x <? 0 then ch "-" else ch "+"]
         ++ pad2 (digits (Z.abs_N x))
  else if decpt <=? 0 then
    ch "0" :: ch "." :: zeros (Z.to_nat (- decpt)) ++ ds
  else if n <=? decpt then
    ds ++ zeros (Z.to_nat (decpt - n)) ++ [ch "."; ch "0"]
  else
    firstn (Z.to_nat decpt) ds ++ ch "." :: skipn (Z.to_nat decpt) ds.

Fixpoint strip_zeros_rev (r : pystr) : pystr :=
  match r with
  | 48%N :: t => strip_zeros_rev t
  | _ => r
  end.

Definition ref_float_repr (x : pyfloat) : pystr :=
  match x with
  | FNan => lit "nan"
  | FInf neg => if neg then lit "-inf" else lit "inf"
  | FFin neg m e =>
    let body :=
      if (m =? 0)%N then lit "0.0"
      else
        let (D, s) := shortest m e 1 17 in
        let all := digits D in
        let ds := rev (strip_zeros_rev (rev all)) in
        layout ds (Z.of_nat (length all) + s) in
    if neg then ch "-" :: body else body
  end.

(** ** Decimal literals *)

(** A run of ASCII digits: its value, its length and what follows. *)
Fixpoint take_digits (s : pystr) (acc : N) (cnt : nat) : N * nat * pystr :=
  match s with
  | c :: t =>
    if is_digit c then take_digits t (acc * 10 + (c - 48))%N (S cnt)
    else (acc, cnt, s)
  | [] => (acc, cnt, [])
  end.

(** The same with single underscores between digits, as [int] and [float]
    accept them. *)
Fixpoint take_digits_us (s : pystr) (acc : N) (cnt : nat) : N * nat * pystr :=
  match s with
  | c :: t =>
    if is_digit c then take_digits_us t (acc * 10 + (c - 48))%N (S cnt)
    else if ((c =? ch "_") && negb (Nat.eqb cnt 0))%N then
      match t with
      | c' :: _ => if is_digit c' then take_digits_us t acc cnt
                   else (acc, cnt, s)
      | [] => (acc, cnt, s)
      end
    else (acc, cnt, s)
  | [] => (acc, cnt, [])
  end.

Definition take_sign (s : pystr) : bool * pystr :=
  match s with
  | c :: t =>
    if (c =? ch "-")%N then (true, t)
    else if (c =? ch "+")%N then (false, t)
    else (false, s)
  | [] => (false, [])
  end.

(** The float with decimal mantissa [mant] and decimal exponent [x]. *)
Definition decimal (neg : bool) (mant : N) (x : Z) : pyfloat :=
  let (a, b) := scale10 mant 1 (- x) in b64 neg a b.

Definition lower (c : N) : N :=
  if ((65 <=? c) && (c <=? 90))%N then (c + 32)%N else c.

(** [int] and [float] read the decimal digits of every script. *)
Definition ascii_digits (s : pystr) : pystr :=
  map (fun c => match to_decimal c with
                | Some d => (48 + d)%N
                | None => c
                end) s.

(** [sys.int_info.default_max_str_digits] *)
Definition max_str_digits : nat := 4300.

(** [int(s)] in base ten *)
Definition ref_int_of_str (s : pystr) : option Z :=
  let (neg, s1) := take_sign (ascii_digits (strip s)) in
  match take_digits_us s1 0 0 with
  | (_, O, _) => None
  | (n, cnt, []) =>
    if (max_str_digits <? cnt)%nat then None
    else Some (if neg then - Z.of_N n else Z.of_N n)
  | _ => None
  end.

(** An optional exponent part: [None] when it is malformed. *)
Definition take_exponent (s : pystr) : option (Z * pystr) :=
  match s with
  | c :: t =>
    if (lower c =? ch "e")%N then
      let (xneg, t1) := take_sign t in
      match take_digits_us t1 0 0 with
      | (_, O, _) => None
      | (x, _, rest) => Some (if xneg then - Z.of_N x else Z.of_N x, rest)
      end
    else Some (0, s)
  | [] => Some (0, [])
  end.

(** [float(s)] *)
Definition ref_float_of_str (s : pystr) : option pyfloat :=
  let (neg, s1) := take_sign (ascii_digits (strip s)) in
  let word := map lower s1 in
  if str_eqb word (lit "inf") || str_eqb word (lit "infinity")
  then Some (FInf neg)
  else if str_eqb word (lit "nan") then Some FNan
  else
    match take_digits_us s1 0 0 with
    | (ip, ni, s2) =>
      let '(fp, nf, s3) :=
        match s2 with
        | c :: t =>
          if (c =? ch ".")%N then take_digits_us t ip 0 else (ip, O, s2)
        | [] => (ip, O, [])
        end in
      match ni, nf with
      | O, O => None
      | _, _ =>
        match take_exponent s3 with
        | Some (x, []) => Some (decimal neg fp (x - Z.of_nat nf))
        | _ => None
        end
      end
    end.

(** ** JSON *)

Definition json_ws (c : N) : bool :=
  ((c =? 32) || (c =? 9) || (c =? 10) || (c =? 13))%N.

Fixpoint skip_ws (s : pystr) : pystr :=
  match s with
  | c :: t => if json_ws c then skip_ws t else s
  | [] => []
  end.

Definition hex_val (c : N) : option N :=
  if is_digit c then Some (c - 48)%N
  else if ((97 <=? lower c) && (lower c <=? 102))%N
       then Some (lower c - 87)%N
  else None.

(** Four hexadecimal digits. *)
Definition take_hex4 (s : pystr) : option (N * pystr) :=
  match s with
  | a :: b :: c :: d :: t =>
    match hex_val a, hex_val b, hex_val c, hex_val d with
    | Some x, Some y, Some z, Some w =>
      Some ((x * 4096 + y * 256 + z * 16 + w)%N, t)
    | _, _, _, _ => None
    end
  | _ => None
  end.

Definition simple_escape (c : N) : option N :=
  if (c =? 34)%N then Some c
  else if (c =? ch "\")%N then Some c
  else if (c =? ch "/")%N then Some c
  else if (c =? ch "b")%N then Some 8%N
  else if (c =? ch "f")%N then Some 12%N
  else if (c =? ch "n")%N then Some 10%N
  else if (c =? ch "r")%N then Some 13%N
  else if (c =? ch "t")%N then Some 9%N
  else None.

(** The body of a string, after the opening quote. *)
Fixpoint scan_string (fuel : nat) (s : pystr) (acc : pystr)
    : option (pystr * pystr) :=
  match fuel with
  | O => None
  | S f =>
    match s with
    | [] => None
    | c :: t =>
      if (c =? 34)%N then Some (rev acc, t)
      else if (c <? 32)%N then None
      else if (c =? ch "\")%N then
        match t with
        | [] => None
        | k :: t1 =>
          if (k =? ch "u")%N then
            match take_hex4 t1 with
            | None => None
            | Some (u, t2) =>
              let single := scan_string f t2 (u :: acc) in
              if ((0xD800 <=? u) && (u <=? 0xDBFF))%N then
                match t2 with
                | b :: k2 :: t3 =>
                  if ((b =? ch "\") && (k2 =? ch "u"))%N then
                    match take_hex4 t3 with
                    | Some (u2, t4) =>
                      if ((0xDC00 <=? u2) && (u2 <=? 0xDFFF))%N then
                        scan_string f t4
                          ((0x10000 + (u - 0xD800) * 0x400
                            + (u2 - 0xDC00))%N :: acc)
                      else single
                    | None => single
                    end
                  else single
                | _ => single
                end
              else single
            end
          else
            match simple_escape k with
            | Some x => scan_string f t1 (x :: acc)
            | None => None
            end
        end
      else scan_string f t (c :: acc)
    end
  end.

Definition starts_with (w s : pystr) : option pystr :=
  if str_eqb w (firstn (length w) s) then Some (skipn (length w) s) else None.

(** A number, after the optional minus sign was read.  An integer of more
    than [max_str_digits] digits is refused with ValueError. *)
Definition scan_number (neg : bool) (s : pystr) : result (pyval * pystr) :=
  let '(ip, ni, s1) :=
    match s with
    | c :: t =>
      if (c =? 48)%N then (0%N, 1%nat, t) else take_digits s 0 0
    | [] => (0%N, O, [])
    end in
  match ni with
  | O => Raise JSONDecodeError
  | _ =>
    let '(fp, nf, s2) :=
      match s1 with
      | c :: t =>
        if (c =? ch ".")%N then
          match take_digits t ip 0 with
          | (_, O, _) => (ip, O, s1)
          | r => r
          end
        else (ip, O, s1)
      | [] => (ip, O, [])
      end in
    let '(x, has_exp, s3) :=
      match s2 with
      | c :: t =>
        if (lower c =? ch "e")%N then
          let (xneg, t1) := take_sign t in
          match take_digits t1 0 0 with
          | (_, O, _) => (0, false, s2)
          | (v, _, rest) => (if xneg then - Z.of_N v else Z.of_N v, true, rest)
          end
        else (0, false, s2)
      | [] => (0, false, [])
      end in
    match nf, has_exp with
    | O, false =>
      if (max_str_digits <? ni)%nat then Raise ValueError
      else Return (PInt (if neg then - Z.of_N ip else Z.of_N ip), s3)
    | _, _ => Return (PFloat (decimal neg fp (x - Z.of_nat nf)), s3)
    end
  end.

(** Assignment in a [dict]: a key keeps the place of its first binding. *)
Fixpoint dict_set (k : pystr) (v : pyval) (d : list (pystr * pyval))
    : list (pystr * pyval) :=
  match d with
  | [] => [(k, v)]
  | (k', v') :: d' =>
    if str_eqb k k' then (k, v) :: d' else (k', v') :: dict_set k v d'
  end.

Definition malformed {A} : result A := Raise JSONDecodeError.

Fixpoint scan_value (fuel : nat) (s : pystr) : result (pyval * pystr) :=
  match fuel with
  | O => malformed
  | S f =>
    match s with
    | [] => malformed
    | c :: t =>
      if (c =? 34)%N then
        match scan_string (S (length t)) t [] with
        | Some (x, r) => Return (PStr x, r)
        | None => malformed
        end
      else if (c =? ch "{")%N then
        match skip_ws t with
        | c1 :: t1 =>
          if (c1 =? ch "}")%N then Return (PDict [], t1)
          else scan_members f (c1 :: t1) []
        | [] => malformed
        end
      else if (c =? ch "[")%N then
        match skip_ws t with
        | c1 :: t1 =>
          if (c1 =? ch "]")%N then Return (PList [], t1)
          else scan_elements f (c1 :: t1) []
        | [] => malformed
        end
      else if (c =? ch "-")%N then
        match starts_with (lit "Infinity") t with
        | Some r => Return (PFloat (FInf true), r)
        | None => scan_number true t
        end
      else if is_digit c then scan_number false s
      else
        match starts_with (lit "null") s with
        | Some r => Return (PNone, r)
        | None =>
        match starts_with (lit "true") s with
        | Some r => Return (PBool true, r)
        | None =>
        match starts_with (lit "false") s with
        | Some r => Return (PBool false, r)
        | None =>
        match starts_with (lit "NaN") s with
        | Some r => Return (PFloat FNan, r)
        | None =>
        match starts_with (lit "Infinity") s with
        | Some r => Return (PFloat (FInf false), r)
        | None => malformed
        end end end end end
    end
  end

with scan_elements (fuel : nat) (s : pystr) (acc : list pyval)
    : result (pyval * pystr) :=
  match fuel with
  | O => malformed
  | S f =>
    match scan_value f s with
    | Raise e => Raise e
    | Return (v, r) =>
      match skip_ws r with
      | c :: t =>
        if (c =? ch "]")%N then Return (PList (rev (v :: acc)), t)
        else if (c =? ch ",")%N then scan_elements f (skip_ws t) (v :: acc)
        else malformed
      | [] => malformed
      end
    end
  end

with scan_members (fuel : nat) (s : pystr) (acc : list (pystr * pyval))
    : result (pyval * pystr) :=
  match fuel with
  | O => malformed
  | S f =>
    match s with
    | c :: t =>
      if (c =? 34)%N then
        match scan_string (S (length t)) t [] with
        | None => malformed
        | Some (k, r) =>
          match skip_ws r with
          | c1 :: t1 =>
            if (c1 =? ch ":")%N then
              match scan_value f (skip_ws t1) with
              | Raise e => Raise e
              | Return (v, r2) =>
                match skip_ws r2 with
                | c2 :: t2 =>
                  if (c2 =? ch "}")%N
                  then Return (PDict (dict_set k v acc), t2)
                  else if (c2 =? ch ",")%N
                  then scan_members f (skip_ws t2) (dict_set k v acc)
                  else malformed
                | [] => malformed
                end
              end
            else malformed
          | [] => malformed
          end
        end
      else malformed
    | [] => malformed
    end
  end.

(** [json.loads(s)]: one value, surrounded by white space only. *)
Definition ref_json_loads (s : pystr) : result pyval :=
  match scan_value (2 * length s + 2) (skip_ws s) with
  | Return (v, r) =>
    match skip_ws r with
    | [] => Return v
    | _ => malformed
    end
  | Raise e => Raise e
  end.

(** ** The rest of the interface *)

Definition encodable (c : N) : bool :=
  ((c <? 0xD800) || (0xDFFF <? c) && (c <=? 0x10FFFF))%N.

(** SQLite stores integers of 64 bits, floats (a NaN as NULL), text that
    has a UTF-8 encoding, and NULL; nothing else can be bound (the driver
    of Python 3.11 refuses it with ProgrammingError). *)
Definition ref_sql_bind (v : pyval) : option exn :=
  match v with
  | PNone | PBool _ => None
  | PInt z =>
    if (- 2 ^ 63 <=? z) && (z <? 2 ^ 63) then None else Some OverflowError
  | PFloat FNan => Some IntegrityError
  | PFloat _ => None
  | PStr s =>
    if forallb encodable s then None
    else Some (OtherException (lit "UnicodeEncodeError"))
  | PList _ | PDict _ => Some ProgrammingError
  end.

(** A float in a column of INTEGER affinity: an integral value of less
    than 64 bits is kept as that integer. *)
Definition real_to_integer (f : pyfloat) : pyval :=
  match f with
  | FNan => PNone
  | FInf _ => PFloat f
  | FFin neg m e =>
    let integral := (0 <=? e) || (Z.of_N m mod 2 ^ (- e) =? 0) in
    let n := float_trunc neg m e in
    if integral && (Z.abs n <? 2 ^ 63) then PInt n else PFloat f
  end.

Definition sqlite_space (c : N) : bool :=
  ((c =? 32) || (9 <=? c) && (c <=? 13))%N.

Fixpoint skip_spaces (s : pystr) : pystr :=
  match s with
  | c :: t => if sqlite_space c then skip_spaces t else s
  | [] => []
  end.

(** Text in such a column: when the whole of it, spaces at the ends
    apart, is a decimal literal, the number is stored in its place.  A
    literal with a point or an exponent is read here as the nearest float;
    SQLite's own reading can differ from that in the last place. *)
Definition text_to_numeric (s : pystr) : option pyval :=
  let (neg, s1) := take_sign (skip_spaces s) in
  let '(ip, ni, s2) := take_digits s1 0 0 in
  let '(fp, nf, has_dot, s3) :=
    match s2 with
    | c :: t =>
      if (c =? ch ".")%N then
        let '(f, n, r) := take_digits t ip 0 in (f, n, true, r)
      else (ip, O, false, s2)
    | [] => (ip, O, false, [])
    end in
  match ni, nf with
  | O, O => None
  | _, _ =>
    let exponent :=
      match s3 with
      | c :: t =>
        if (lower c =? ch "e")%N then
          let (xneg, t1) := take_sign t in
          match take_digits t1 0 0 with
          | (_, O, _) => None
          | (x, _, r) => Some (if xneg then - Z.of_N x else Z.of_N x, true, r)
          end
        else Some (0, false, s3)
      | [] => Some (0, false, [])
      end in
    match exponent with
    | None => None
    | Some (x, has_exp, s4) =>
      match skip_spaces s4 with
      | [] =>
        let z := if neg then - Z.of_N ip else Z.of_N ip in
        if negb has_dot && negb has_exp
           && (- 2 ^ 63 <=? z) && (z <? 2 ^ 63)
        then Some (PInt z)
        else Some (real_to_integer (decimal neg fp (x - Z.of_nat nf)))
      | _ => None
      end
    end
  end.

(** What the INTEGER column [Confid] holds for a value that was bound. *)
Definition ref_sql_integer (v : pyval) : pyval :=
  match v with
  | PBool b => PInt (if b then 1 else 0)
  | PFloat f => real_to_integer f
  | PStr s =>
    match text_to_numeric s with
    | Some n => n
    | None => v
    end
  | _ => v
  end.

(** Conversions [!s], [!r] and [!a] of a float are its [repr]; accessors
    and format specs are not covered. *)
Definition ref_format_field (v : pyfloat) (rest : pystr) (conv : option N)
    (spec : pystr) : result pystr :=
  match rest, conv, spec with
  | [], Some c, [] =>
    if ((c =? ch "s") || (c =? ch "r") || (c =? ch "a"))%N
    then Return (ref_float_repr v) else Raise ValueError
  | _, _, _ => Raise (OtherException (lit "NotImplementedError"))
  end.

#[export] Instance RefRuntime : Runtime := {|
  json_loads := ref_json_loads;
  float_of_int := ref_float_of_int;
  float_of_str := ref_float_of_str;
  int_of_str := ref_int_of_str;
  py_round := ref_round;
  float_repr := ref_float_repr;
  format_field := ref_format_field;
  sql_bind := ref_sql_bind;
  sql_integer := ref_sql_integer
|}.

(** ** Fixtures *)

(** Every brace written twice, which is how [str.format] wants a literal
    brace. *)
Definition double_braces (l : pystr) : pystr :=
  flat_map (fun c => if ((c =? ch "{") || (c =? ch "}"))%N then [c; c]
                     else [c]) l.

Definition body_25_40_3 : pystr :=
  qlit "{`Temp`: 25, `Humid`: 40, `Proxy`: 3}".


Definition body_no_proxy : pystr := qlit "{`Temp`: 25, `Humid`: 40}".

Definition body_not_numbers : pystr :=
  qlit "{`Temp`: `25`, `Humid`: true, `Proxy`: 3}".

Definition body_not_json : pystr := qlit "Temp=25".

Definition answer_mild : pystr :=
  qlit "{`text`:`Mild day.`,`recommendation`:`Stay hydrated.`,`confidence`:80}".

Definition answer_padded : pystr :=
  qlit "{`text`:`  Mild day. `,`recommendation`:` Stay hydrated.\n`,`confidence`:250}".

(** A table whose rows are not in key order. *)
Definition three_rows : Model.Store :=
  [{| Model.id := 2; Model.Temp := 20; Model.Humid := 55; Model.Proxy := 1;
      Model.Resp := lit "Cool."; Model.Sugg := lit "Open a window.";
      Model.Confid := PInt 70; Model.Time := 8 |};
   {| Model.id := 1; Model.Temp := 25; Model.Humid := 40; Model.Proxy := 3;
      Model.Resp := lit "Mild day."; Model.Sugg := lit "Stay hydrated.";
      Model.Confid := PInt 80; Model.Time := 7 |};
   {| Model.id := 3; Model.Temp := 31; Model.Humid := 60; Model.Proxy := 2;
      Model.Resp := lit "Hot."; Model.Sugg := lit "Seek shade.";
      Model.Confid := PInt 90; Model.Time := 9 |}].

Definition body_nan : pystr :=
  qlit "{`Temp`: 25, `Humid`: NaN, `Proxy`: 3}".

(** A provider that answers every prompt with [s]. *)
Definition llm_answers (s : pystr) : Agent.LLM :=
  {| Agent.invoke := fun _ => Return s |}.

(** A provider that cannot be reached. *)
Definition llm_down : Agent.LLM :=
  {| Agent.invoke := fun _ => Raise (OtherException (lit "ConnectionError")) |}.

End Ref.

(* ===================================================================== *)
(** * Specification vocabulary                                            *)
(* ===================================================================== *)

Import Py Agent Model App.
Local Open Scope py_scope.

(** Newest first, weakly and strictly. *)
Definition ge_id (a b : Data) : Prop := id b <= id a.
Definition gt_id (a b : Data) : Prop := id b < id a.

(** The keyword arguments [report] passes to [prompt.format]. *)
Definition report_kwargs {R : Runtime} (t h x : pyfloat) : kwargs :=
  [(lit "Temp", py_round t 2); (lit "Humid", py_round h 2);
   (lit "Proxy", py_round x 2)].

(** The statements of [report] before its [try]: the prompt it builds. *)
Definition report_prompt {R : Runtime} (prompt : PromptTemplate)
    (temp humid proxy : pyval) : result pystr :=
  t <- py_float temp ;;
  h <- py_float humid ;;
  x <- py_float proxy ;;
  format prompt (report_kwargs t h x).

(** What one run of the view has in hand when it reaches the INSERT. *)
Record Cycle := {
  c_temp : pyval;
  c_humid : pyval;
  c_proxy : pyval;
  c_response : pystr;
  c_text : pystr;
  c_recommendation : pystr;
  c_confidence : pyval;
  c_Temp : Z;
  c_Humid : Z;
  c_Proxy : Z
}.

(** The statements of [data] before the session is touched, in the plain
    error monad. *)
Definition interpret {R : Runtime} (prompt : PromptTemplate) (llm : LLM)
    (request : Request) : result Cycle :=
  data <- get_json request ;;
  temp <- getitem data (lit "Temp") ;;
  humid <- getitem data (lit "Humid") ;;
  proxy <- getitem data (lit "Proxy") ;;
  response <- report prompt llm temp humid proxy ;;
  parsed_resp <- json_loads response ;;
  text <- (x <- getitem parsed_resp (lit "text") ;; strip_method x) ;;
  recommendation <-
    (x <- getitem parsed_resp (lit "recommendation") ;; strip_method x) ;;
  confidence <- getitem parsed_resp (lit "confidence") ;;
  Temp_ <- py_int temp ;;
  Humid_ <- py_int humid ;;
  Proxy_ <- py_int proxy ;;
  Return {| c_temp := temp; c_humid := humid; c_proxy := proxy;
            c_response := response; c_text := text;
            c_recommendation := recommendation;
            c_confidence := confidence;
            c_Temp := Temp_; c_Humid := Humid_; c_Proxy := Proxy_ |}.

(** The same statements, one by one: [body] is the decoded request,
    [parsed] the decoded answer, [text0] and [rec0] its two strings before
    they are stripped. *)
Record completed {R : Runtime} (prompt : PromptTemplate) (llm : LLM)
    (request : Request) (c : Cycle) (body parsed : pyval)
    (text0 rec0 : pystr) : Prop := {
  cy_body : get_json request = Return body;
  cy_temp : getitem body (lit "Temp") = Return (c_temp c);
  cy_humid : getitem body (lit "Humid") = Return (c_humid c);
  cy_proxy : getitem body (lit "Proxy") = Return (c_proxy c);
  cy_report :
    report prompt llm (c_temp c) (c_humid c) (c_proxy c)
    = Return (c_response c);
  cy_parsed : json_loads (c_response c) = Return parsed;
  cy_text0 : getitem parsed (lit "text") = Return (PStr text0);
  cy_text : c_text c = strip text0;
  cy_rec0 : getitem parsed (lit "recommendation") = Return (PStr rec0);
  cy_rec : c_recommendation c = strip rec0;
  cy_conf : getitem parsed (lit "confidence") = Return (c_confidence c);
  cy_Temp : py_int (c_temp c) = Return (c_Temp c);
  cy_Humid : py_int (c_humid c) = Return (c_Humid c);
  cy_Proxy : py_int (c_proxy c) = Return (c_Proxy c)
}.

Definition new_of (c : Cycle) : Data_new :=
  {| new_Temp := c_Temp c; new_Humid := c_Humid c; new_Proxy := c_Proxy c;
     new_Resp := c_text c; new_Sugg := c_recommendation c;
     new_Confid := c_confidence c |}.

Definition row_of {R : Runtime} (c : Cycle) (key now : Z) : Data :=
  {| id := key; Temp := c_Temp c; Humid := c_Humid c; Proxy := c_Proxy c;
     Resp := c_text c; Sugg := c_recommendation c;
     Confid := sql_integer (c_confidence c); Time := now |}.

(** The body of the success response. *)
Definition payload (key : Z) (text recommendation : pystr)
    (confidence : pyval) : pyval :=
  PDict [(lit "status", PStr (lit "ok"));
         (lit "id", PInt key);
         (lit "Display", PStr text);
         (lit "Sugg", PStr recommendation);
         (lit "Confid", confidence)].

(** The database takes every column of the row. *)
Definition accepted {R : Runtime} (d : Data_new) : Prop :=
  bind_param (PInt (new_Temp d)) = Return tt /\
  bind_param (PInt (new_Humid d)) = Return tt /\
  bind_param (PInt (new_Proxy d)) = Return tt /\
  bind_param (PStr (new_Resp d)) = Return tt /\
  bind_param (PStr (new_Sugg d)) = Return tt /\
  bind_param (new_Confid d) = Return tt.


(** The exceptions a request with a missing or unconvertible field ends
    in. *)
Definition input_error (e : exn) : Prop :=
  match e with
  | KeyError _ | TypeError | ValueError | OverflowError => True
  | _ => False
  end.

(** Serving calls one after the other: the responses and the table at
    the end. *)
Fixpoint serve_all {R : Runtime} (prompt : PromptTemplate) (cs : list Call)
    (db : Store) : list Response * Store :=
  match cs with
  | [] => ([], db)
  | c :: cs' =>
    let (r, db1) := serve prompt c db in
    let (rs, db2) := serve_all prompt cs' db1 in
    (r :: rs, db2)
  end.

Definition is_success (r : Response) : bool :=
  match r with
  | Jsonify _ _ => true
  | _ => false
  end.

Definition is_post (c : Call) : bool :=
  match c with
  | POST_data _ _ _ => true
  | GET_index => false
  end.

Definition count {A} (f : A -> bool) (l : list A) : nat :=
  length (filter f l).

(** A float that is not a number or is infinite. *)
Definition non_finite (v : pyval) : Prop :=
  match v with
  | PFloat FNan | PFloat (FInf _) => True
  | _ => False
  end.

Definition is_brace (c : N) : bool := ((c =? c_open) || (c =? c_close))%N.

Definition brace_free (s : pystr) : bool :=
  forallb (fun c => negb (is_brace c)) s.

(** A field name that is looked up among the keyword arguments as it
    stands: not empty, no brace, colon, exclamation mark, bracket or dot in
    it, and not read as a number (it has a character that is no decimal
    digit before the digits make up too large an index). *)
Definition name_char (c : N) : bool :=
  negb (is_brace c || (c =? c_colon) || (c =? c_bang) || (c =? c_lbr)
        || (c =? c_dot))%N.

Definition plain_name (s : pystr) : bool :=
  forallb name_char s &&
  match get_integer s with
  | Keyword => negb (str_eqb s [])
  | _ => false
  end.

(** [Data.__repr__] *)
Definition Data_repr (r : Data) : pystr :=
  lit "<Data " ++ Ref.str_of_Z (id r) ++ lit ">".

(** [s] without white space at either end. *)
Definition trimmed (s : pystr) : Prop :=
  match s with
  | [] => True
  | c :: _ => isspace c = false /\ isspace (last s c) = false
  end.

(* ===================================================================== *)
(** * The reading store                                                   *)
(* ===================================================================== *)

Section Queries.

Lemma insert_desc_perm r l : Permutation (r :: l) (insert_desc r l).
Proof.
  induction l as [|x t IH]; simpl; [reflexivity|].
  destruct (id x <=? id r); [reflexivity|].
  transitivity (x :: r :: t); [apply perm_swap | now apply perm_skip].
Qed.

Lemma order_by_perm db : Permutation db (order_by_id_desc db).
Proof.
  induction db as [|r t IH]; simpl; [constructor|].
  transitivity (r :: order_by_id_desc t).
  - now apply perm_skip.
  - apply insert_desc_perm.
Qed.

Lemma insert_desc_In r l x : In x (insert_desc r l) <-> x = r \/ In x l.
Proof.
  split; intros H.
  - apply (Permutation_in _ (Permutation_sym (insert_desc_perm r l))) in H.
    destruct H; auto.
  - apply (Permutation_in _ (insert_desc_perm r l)).
    destruct H; [left | right]; auto.
Qed.

Lemma insert_desc_sorted r l :
  StronglySorted ge_id l -> StronglySorted ge_id (insert_desc r l).
Proof.
  induction 1 as [|a l Hs IH Ha]; simpl.
  - repeat constructor.
  - destruct (id a <=? id r) eqn:E.
    + apply Z.leb_le in E. constructor; [constructor; assumption|].
      constructor; [exact E|].
      eapply Forall_impl; [|exact Ha]. unfold ge_id. intros; lia.
    + apply Z.leb_gt in E. constructor; [exact IH|].
      apply Forall_forall. intros x Hx. apply insert_desc_In in Hx.
      destruct Hx as [->|Hx]; [unfold ge_id; lia|].
      rewrite Forall_forall in Ha. now apply Ha.
Qed.

Lemma order_by_sorted db : StronglySorted ge_id (order_by_id_desc db).
Proof.
  induction db as [|r t IH]; simpl; [constructor|].
  now apply insert_desc_sorted.
Qed.

Lemma sorted_strict l :
  StronglySorted ge_id l -> NoDup (map id l) -> StronglySorted gt_id l.
Proof.
  induction 1 as [|a l Hs IH Ha]; intros ND; [constructor|].
  simpl in ND. inversion ND as [|? ? Hnin ND']; subst.
  constructor; [now apply IH|].
  rewrite Forall_forall in *. intros x Hx.
  specialize (Ha x Hx). unfold ge_id in Ha. unfold gt_id.
  assert (id x <> id a).
  { intros E. apply Hnin. rewrite <- E. now apply in_map. }
  lia.
Qed.

Lemma sorted_firstn (P : Data -> Data -> Prop) n l :
  StronglySorted P l -> StronglySorted P (firstn n l).
Proof.
  intros H. revert n. induction H as [|a l Hs IH Ha]; intros [|n]; simpl;
    try constructor.
  - apply IH.
  - rewrite Forall_forall in *. intros x Hx. apply Ha.
    eapply (In_nth_error _ x) in Hx as [k Hk].
    rewrite nth_error_firstn in Hk.
    destruct (Nat.ltb k n); [|discriminate].
    eapply nth_error_In; eauto.
Qed.

Lemma sorted_app_inv (P : Data -> Data -> Prop) l1 l2 :
  StronglySorted P (l1 ++ l2) ->
  forall a b, In a l1 -> In b l2 -> P a b.
Proof.
  induction l1 as [|x l1 IH]; simpl; intros H a b Ha Hb; [contradiction|].
  inversion H as [|? ? Hs Hall]; subst.
  destruct Ha as [->|Ha].
  - rewrite Forall_forall in Hall. apply Hall, in_or_app. now right.
  - now apply IH.
Qed.

Lemma order_by_strict db :
  NoDup (map id db) -> StronglySorted gt_id (order_by_id_desc db).
Proof.
  intros ND. apply sorted_strict; [apply order_by_sorted|].
  eapply Permutation_NoDup; [|exact ND].
  apply Permutation_map, order_by_perm.
Qed.

Lemma fold_max_ge (t : list Data) (a : Z) :
  a <= fold_right (fun x acc => Z.max (id x) acc) a t /\
  forall r, In r t ->
            id r <= fold_right (fun x acc => Z.max (id x) acc) a t.
Proof.
  induction t as [|x t [IH1 IH2]]; simpl; (split; [lia|]).
  - intros r [].
  - intros r [->|H]; [lia|]. specialize (IH2 r H). lia.
Qed.

Lemma max_id_ge db r : In r db -> id r <= max_id db.
Proof.
  destruct db as [|x t]; simpl; [contradiction|].
  destruct (fold_max_ge t (id x)) as [H1 H2].
  intros [<-|H]; [exact H1 | now apply H2].
Qed.

Lemma max_id_positive db : Forall (fun r => 0 < id r) db -> 0 <= max_id db.
Proof.
  destruct db as [|x t]; simpl; [lia|].
  intros H. inversion H; subst.
  destruct (fold_max_ge t (id x)). lia.
Qed.

End Queries.

(* ===================================================================== *)
(** * The interpretation client                                           *)
(* ===================================================================== *)

Section Client.
Context {R : Runtime}.
Variable p : PromptTemplate.
Variable llm : LLM.

Lemma report_split temp humid proxy :
  report p llm temp humid proxy =
  (prompt_ <- report_prompt p temp humid proxy ;;
   try_except
     (resp <- invoke llm prompt_ ;;
      try_except (_ <- json_loads resp ;; Return resp)
        is_JSONDecodeError (fun _ => Return resp))
     is_Exception (fun _ => Return (lit "Error."))).
Proof.
  unfold report, report_prompt, report_kwargs.
  destruct (py_float temp); simpl; [|reflexivity].
  destruct (py_float humid); simpl; [|reflexivity].
  destruct (py_float proxy); simpl; reflexivity.
Qed.

Lemma py_float_exceptions v e :
  py_float v = Raise e -> is_Exception e = true.
Proof.
  destruct v; simpl; try discriminate;
    try (intros H; injection H as <-; reflexivity).
  - destruct (float_of_int z); simpl; [discriminate|].
    intros H; injection H as <-; reflexivity.
  - destruct (float_of_str s); simpl; [discriminate|].
    intros H; injection H as <-; reflexivity.
Qed.

End Client.

(** The template as deployed: the braces of its JSON examples open a
    replacement field named ["text"], quotes included. *)
Lemma deployed_format_KeyError (R : Runtime) (t h x : pyfloat) :
  format prompt [(lit "Temp", t); (lit "Humid", h); (lit "Proxy", x)]
  = Raise (KeyError (qlit "`text`")).
Proof. vm_compute. reflexivity. Qed.

(** The deployed [report] therefore never reaches the model. *)
Lemma deployed_report_raises (R : Runtime) (llm : LLM)
    (temp humid proxy : pyval) :
  exists e, report prompt llm temp humid proxy = Raise e /\
            is_Exception e = true.
Proof.
  rewrite report_split. unfold report_prompt, report_kwargs.
  destruct (py_float temp) eqn:E1; cbn [bind];
    [|eexists; split; [reflexivity | eapply py_float_exceptions; eauto]].
  destruct (py_float humid) eqn:E2; cbn [bind];
    [|eexists; split; [reflexivity | eapply py_float_exceptions; eauto]].
  destruct (py_float proxy) eqn:E3; cbn [bind];
    [|eexists; split; [reflexivity | eapply py_float_exceptions; eauto]].
  rewrite deployed_format_KeyError. cbn [bind].
  eexists; split; reflexivity.
Qed.

(** When the three arguments are numbers, that KeyError is what [report]
    raises, whatever the model would do. *)
Lemma deployed_report_KeyError (R : Runtime) (llm : LLM)
    (temp humid proxy : pyval) (t h x : pyfloat) :
  py_float temp = Return t ->
  py_float humid = Return h ->
  py_float proxy = Return x ->
  report prompt llm temp humid proxy = Raise (KeyError (qlit "`text`")).
Proof.
  intros Ht Hh Hx. rewrite report_split. unfold report_prompt, report_kwargs.
  rewrite Ht, Hh, Hx. cbn [bind].
  rewrite deployed_format_KeyError. reflexivity.
Qed.

(** The model has no part in what the deployed [report] does. *)
Lemma deployed_report_ignores_model (R : Runtime) (llm llm' : LLM)
    (temp humid proxy : pyval) :
  report prompt llm temp humid proxy = report prompt llm' temp humid proxy.
Proof.
  rewrite !report_split. unfold report_prompt, report_kwargs.
  destruct (py_float temp); cbn [bind]; [|reflexivity].
  destruct (py_float humid); cbn [bind]; [|reflexivity].
  destruct (py_float proxy); cbn [bind]; [|reflexivity].
  rewrite deployed_format_KeyError. reflexivity.
Qed.

(** C6 on the deployed template.  For every triple of floats, the call
    [prompt.format(Temp=..., Humid=..., Proxy=...)] made by [report] raises
    KeyError for the name ["text"]: no prompt is produced, so nothing is
    embedded in it. *)
Theorem C6_prompt_format_raises_KeyError (R : Runtime) (t h x : pyfloat) :
  format prompt (report_kwargs t h x) = Raise (KeyError (qlit "`text`")).
Proof. apply deployed_format_KeyError. Qed.

Lemma report_float_failure (R : Runtime) (p : PromptTemplate) (llm : LLM)
    (temp humid proxy : pyval) :
  (exists e, py_float temp = Raise e) \/
  (exists e, py_float humid = Raise e) \/
  (exists e, py_float proxy = Raise e) ->
  exists e,
    report p llm temp humid proxy = Raise e /\
    is_Exception e = true /\
    (py_float temp = Raise e \/ py_float humid = Raise e \/
     py_float proxy = Raise e).
Proof.
  intros H. rewrite report_split. unfold report_prompt.
  destruct (py_float temp) as [t|e1] eqn:E1; cbn [bind].
  2: { exists e1. repeat split; auto. eapply py_float_exceptions; eauto. }
  destruct (py_float humid) as [h|e2] eqn:E2; cbn [bind].
  2: { exists e2. repeat split; auto. eapply py_float_exceptions; eauto. }
  destruct (py_float proxy) as [x|e3] eqn:E3; cbn [bind].
  2: { exists e3. repeat split; auto. eapply py_float_exceptions; eauto. }
  destruct H as [[e H]|[[e H]|[e H]]]; discriminate.
Qed.

(** C10. An argument that [float] rejects makes [report] raise the
    exception of the first failing conversion: the conversions stand
    before the [try], so the handler, which would catch this exception,
    does not apply and "Error." is not returned. *)
Theorem C10_conversion_failure_escapes_report
    (R : Runtime) (p : PromptTemplate) (llm : LLM)
    (temp humid proxy : pyval) :
  (exists e, py_float temp = Raise e) \/
  (exists e, py_float humid = Raise e) \/
  (exists e, py_float proxy = Raise e) ->
  exists e,
    report p llm temp humid proxy = Raise e /\
    report p llm temp humid proxy <> Return (lit "Error.") /\
    is_Exception e = true /\
    (py_float temp = Raise e \/ py_float humid = Raise e \/
     py_float proxy = Raise e).
Proof.
  intros H.
  destruct (report_float_failure R p llm temp humid proxy H)
    as (e & Hr & He & Hc).
  exists e. repeat split; auto. rewrite Hr. discriminate.
Qed.

Lemma C10_witness :
  exists e,
    @report Ref.RefRuntime (@prompt Ref.RefRuntime) Ref.llm_down
      (PStr (lit "warm")) PNone (PInt 3) = Raise e /\
    @report Ref.RefRuntime (@prompt Ref.RefRuntime) Ref.llm_down
      (PStr (lit "warm")) PNone (PInt 3) <> Return (lit "Error.") /\
    is_Exception e = true /\
    (@py_float Ref.RefRuntime (PStr (lit "warm")) = Raise e \/
     @py_float Ref.RefRuntime PNone = Raise e \/
     @py_float Ref.RefRuntime (PInt 3) = Raise e).
Proof.
  apply (C10_conversion_failure_escapes_report Ref.RefRuntime
           (@prompt Ref.RefRuntime) Ref.llm_down
           (PStr (lit "warm")) PNone (PInt 3)).
  left. exists ValueError. vm_compute. reflexivity.
Defined.

(** C2 on the deployed template.  For every triple of numbers and every
    model, in particular one whose call would fail, [report] raises the
    KeyError of [prompt.format]: the call stands before the [try], the
    model is not reached, nothing is caught and "Error." is not returned. *)
Theorem C2_deployed_report_raises_before_the_model_call
    (R : Runtime) (llm : LLM) (temp humid proxy : pyval) (t h x : pyfloat) :
  py_float temp = Return t ->
  py_float humid = Return h ->
  py_float proxy = Return x ->
  report prompt llm temp humid proxy = Raise (KeyError (qlit "`text`")) /\
  report prompt llm temp humid proxy <> Return (lit "Error.").
Proof.
  intros Ht Hh Hx.
  rewrite (deployed_report_KeyError R llm temp humid proxy t h x Ht Hh Hx).
  split; [reflexivity | discriminate].
Qed.

(** [report(25, 40, 3)] while the provider cannot be reached. *)
Lemma C2_witness :
  invoke Ref.llm_down [] = Raise (OtherException (lit "ConnectionError")) /\
  @report Ref.RefRuntime (@prompt Ref.RefRuntime) Ref.llm_down
    (PInt 25) (PInt 40) (PInt 3) = Raise (KeyError (qlit "`text`")) /\
  @report Ref.RefRuntime (@prompt Ref.RefRuntime) Ref.llm_down
    (PInt 25) (PInt 40) (PInt 3) <> Return (lit "Error.").
Proof.
  split; [reflexivity|].
  eapply (C2_deployed_report_raises_before_the_model_call Ref.RefRuntime
           Ref.llm_down (PInt 25) (PInt 40) (PInt 3)
           _ _ _);
    vm_compute; reflexivity.
Defined.

(** C3 on the deployed template.  For every triple of numbers, what
    [report] does is the same for every model: it raises the KeyError of
    [prompt.format].  A model that answers with text that is not JSON and a
    model that answers with JSON are not told apart, no outcome marks the
    answer as unparsed, and the raw text is not returned either. *)
Theorem C3_deployed_report_is_the_same_for_every_answer
    (R : Runtime) (llm llm' : LLM) (temp humid proxy : pyval)
    (t h x : pyfloat) :
  py_float temp = Return t ->
  py_float humid = Return h ->
  py_float proxy = Return x ->
  report prompt llm temp humid proxy = Raise (KeyError (qlit "`text`")) /\
  report prompt llm' temp humid proxy = report prompt llm temp humid proxy.
Proof.
  intros Ht Hh Hx. split.
  - exact (deployed_report_KeyError R llm temp humid proxy t h x Ht Hh Hx).
  - apply deployed_report_ignores_model.
Qed.

(** [report(25, 40, 3)] with the answer "Mild day, stay hydrated.", which
    is not JSON, and with an answer that is. *)
Lemma C3_witness :
  @json_loads Ref.RefRuntime (lit "Mild day, stay hydrated.")
    = Raise JSONDecodeError /\
  @json_loads Ref.RefRuntime Ref.answer_mild
    = Return (PDict [(lit "text", PStr (lit "Mild day."));
                     (lit "recommendation", PStr (lit "Stay hydrated."));
                     (lit "confidence", PInt 80)]) /\
  @report Ref.RefRuntime (@prompt Ref.RefRuntime)
    (Ref.llm_answers (lit "Mild day, stay hydrated."))
    (PInt 25) (PInt 40) (PInt 3) = Raise (KeyError (qlit "`text`")) /\
  @report Ref.RefRuntime (@prompt Ref.RefRuntime)
    (Ref.llm_answers Ref.answer_mild) (PInt 25) (PInt 40) (PInt 3)
  = @report Ref.RefRuntime (@prompt Ref.RefRuntime)
      (Ref.llm_answers (lit "Mild day, stay hydrated."))
      (PInt 25) (PInt 40) (PInt 3).
Proof.
  split; [vm_compute; reflexivity|]. split; [vm_compute; reflexivity|].
  eapply (C3_deployed_report_is_the_same_for_every_answer Ref.RefRuntime
           (Ref.llm_answers (lit "Mild day, stay hydrated."))
           (Ref.llm_answers Ref.answer_mild) (PInt 25) (PInt 40) (PInt 3)
           _ _ _);
    vm_compute; reflexivity.
Defined.

(** The text of the template before its first JSON example does format:
    the values appear as [repr] prints the rounded floats, with one decimal
    for 25 and two for 40.257. *)
Example deployed_prefix_embeds :
  match @vformat Ref.RefRuntime (firstn 1625 PROMPT_TEMPLATE)
          (@report_kwargs Ref.RefRuntime (FFin false 25 0)
             (Ref.decimal false 40257 (-3)) (FFin false 3 0)) with
  | Return out =>
    contains (lit "): 25.0") out && contains (lit "(%): 40.26") out
    && contains (lit "(meters): 3.0") out
    && negb (contains (lit "25.00") out)
  | Raise _ => false
  end = true.
Proof. vm_compute. reflexivity. Qed.

(* ===================================================================== *)
(** * The request handler                                                 *)
(* ===================================================================== *)

Section Handler.
Context {R : Runtime}.
Variable p : PromptTemplate.

Lemma bind_param_tt v : bind_param v = Return tt \/ exists e, bind_param v = Raise e.
Proof.
  unfold bind_param. destruct (sql_bind v); [right; eauto|].
  destruct v; eauto.
Qed.

Lemma bind_param_not_null v : bind_param v = Return tt -> v <> PNone.
Proof.
  unfold bind_param. intros H ->. destruct (sql_bind PNone); discriminate.
Qed.

Lemma add_commit_accepted now d db :
  accepted d ->
  add_commit now d db =
  Return ({| id := next_id db; Temp := new_Temp d; Humid := new_Humid d;
             Proxy := new_Proxy d; Resp := new_Resp d; Sugg := new_Sugg d;
             Confid := sql_integer (new_Confid d); Time := now |},
          db ++ [{| id := next_id db; Temp := new_Temp d;
                    Humid := new_Humid d; Proxy := new_Proxy d;
                    Resp := new_Resp d; Sugg := new_Sugg d;
                    Confid := sql_integer (new_Confid d); Time := now |}]).
Proof.
  intros (H1 & H2 & H3 & H4 & H5 & H6). unfold add_commit.
  rewrite H1, H2, H3, H4, H5, H6. reflexivity.
Qed.

Lemma add_commit_cases now d db :
  (accepted d /\
   add_commit now d db =
   Return ({| id := next_id db; Temp := new_Temp d; Humid := new_Humid d;
              Proxy := new_Proxy d; Resp := new_Resp d; Sugg := new_Sugg d;
              Confid := sql_integer (new_Confid d); Time := now |},
           db ++ [{| id := next_id db; Temp := new_Temp d;
                     Humid := new_Humid d; Proxy := new_Proxy d;
                     Resp := new_Resp d; Sugg := new_Sugg d;
                     Confid := sql_integer (new_Confid d); Time := now |}]))
  \/ exists e, add_commit now d db = Raise e.
Proof.
  destruct (bind_param_tt (PInt (new_Temp d))) as [H1|[e H1]];
  destruct (bind_param_tt (PInt (new_Humid d))) as [H2|[e' H2]];
  destruct (bind_param_tt (PInt (new_Proxy d))) as [H3|[e3 H3]];
  destruct (bind_param_tt (PStr (new_Resp d))) as [H4|[e4 H4]];
  destruct (bind_param_tt (PStr (new_Sugg d))) as [H5|[e5 H5]];
  destruct (bind_param_tt (new_Confid d)) as [H6|[e6 H6]];
  try (left; split; [repeat split; assumption|];
       apply add_commit_accepted; repeat split; assumption);
  right; unfold add_commit;
  repeat match goal with H : bind_param _ = _ |- _ => rewrite H; clear H end;
  simpl; eauto.
Qed.

(** The view is the interpretation followed by the INSERT. *)
Lemma data_interpret llm now req db :
  data p llm now req db =
  match interpret p llm req with
  | Raise e => Raise e
  | Return c =>
    match add_commit now (new_of c) db with
    | Raise e => Raise e
    | Return (row, db') =>
      Return (Jsonify (payload (id row) (c_text c) (c_recommendation c)
                               (c_confidence c)) 200, db')
    end
  end.
Proof.
  unfold data, interpret, bindV, lift, ret, payload, new_of.
  repeat match goal with
  | |- context [bind ?c _] =>
    lazymatch c with
    | context [bind] => fail
    | _ => destruct c; cbn [bind]; try reflexivity
    end
  end.
Qed.

Lemma serve_post llm now req db :
  serve p (POST_data now llm req) db =
  match interpret p llm req with
  | Raise e => (handle_exception e, db)
  | Return c =>
    match add_commit now (new_of c) db with
    | Raise e => (handle_exception e, db)
    | Return (row, db') =>
      (Jsonify (payload (id row) (c_text c) (c_recommendation c)
                        (c_confidence c)) 200, db')
    end
  end.
Proof.
  unfold serve, dispatch. rewrite data_interpret.
  destruct (interpret p llm req) as [c|e]; [|reflexivity].
  destruct (add_commit now (new_of c) db) as [[row db']|e]; reflexivity.
Qed.

Lemma handle_exception_not_json e : forall pl st, handle_exception e <> Jsonify pl st.
Proof.
  intros pl st. unfold handle_exception.
  destruct e; simpl; discriminate.
Qed.

End Handler.

(** ** White space *)

Lemma lstrip_spec s :
  exists a, s = a ++ lstrip s /\ forallb isspace a = true /\
            match lstrip s with
            | [] => True
            | c :: _ => isspace c = false
            end.
Proof.
  induction s as [|c t (a & Ha & Hsp & Hh)]; simpl.
  - exists []. repeat split.
  - destruct (isspace c) eqn:E.
    + exists (c :: a). simpl. rewrite E, Hsp. repeat split; auto.
      now rewrite <- Ha.
    + exists []. simpl. repeat split; auto.
Qed.

Lemma rstrip_spec s :
  exists b, s = rstrip s ++ b /\ forallb isspace b = true /\
            (rstrip s = [] \/
             exists u c, rstrip s = u ++ [c] /\ isspace c = false).
Proof.
  unfold rstrip.
  destruct (lstrip_spec (rev s)) as (a & Ha & Hsp & Hh).
  exists (rev a). repeat split.
  - rewrite <- rev_app_distr, <- Ha. symmetry. apply rev_involutive.
  - apply forallb_forall. intros x Hx. apply in_rev in Hx.
    rewrite forallb_forall in Hsp. now apply Hsp.
  - destruct (lstrip (rev s)) as [|c u]; [now left|].
    right. exists (rev u), c. split; [reflexivity | exact Hh].
Qed.

Lemma strip_decompose s :
  exists a b, s = a ++ strip s ++ b /\
              forallb isspace a = true /\ forallb isspace b = true.
Proof.
  unfold strip.
  destruct (lstrip_spec s) as (a & Ha & Hsa & _).
  destruct (rstrip_spec (lstrip s)) as (b & Hb & Hsb & _).
  exists a, b. repeat split; auto. now rewrite <- Hb.
Qed.

Lemma strip_trimmed s : trimmed (strip s).
Proof.
  unfold strip, trimmed.
  destruct (lstrip_spec s) as (_ & _ & _ & Hh).
  destruct (rstrip_spec (lstrip s)) as (b & Hb & Hsb & Hl).
  destruct (rstrip (lstrip s)) as [|c r] eqn:Er; [exact I|].
  destruct Hl as [Hl | (u & d & Hu & Hd)]; [discriminate|].
  rewrite Hb in Hh. simpl in Hh. split; [exact Hh|].
  rewrite Hu. rewrite last_last. exact Hd.
Qed.

(** ** Truncation *)



(** ** One run of the view *)

Section Cycles.
Context {R : Runtime}.
Variable p : PromptTemplate.

Lemma strip_method_Return x s :
  strip_method x = Return s -> exists s0, x = PStr s0 /\ s = strip s0.
Proof.
  destruct x; simpl; try discriminate.
  intros H. injection H as <-. eauto.
Qed.

Lemma interpret_inv llm req c :
  interpret p llm req = Return c ->
  exists body parsed text0 rec0,
    completed p llm req c body parsed text0 rec0.
Proof.
  unfold interpret.
  destruct (get_json req) as [body|] eqn:E1; cbn [bind]; [|discriminate].
  destruct (getitem body (lit "Temp")) as [temp|] eqn:E2; cbn [bind];
    [|discriminate].
  destruct (getitem body (lit "Humid")) as [humid|] eqn:E3; cbn [bind];
    [|discriminate].
  destruct (getitem body (lit "Proxy")) as [proxy|] eqn:E4; cbn [bind];
    [|discriminate].
  destruct (report p llm temp humid proxy) as [response|] eqn:E5; cbn [bind];
    [|discriminate].
  destruct (json_loads response) as [parsed|] eqn:E6; cbn [bind];
    [|discriminate].
  destruct (getitem parsed (lit "text")) as [t0|] eqn:E7; cbn [bind];
    [|discriminate].
  destruct (strip_method t0) as [text|] eqn:E8; cbn [bind]; [|discriminate].
  destruct (getitem parsed (lit "recommendation")) as [r0|] eqn:E9;
    cbn [bind]; [|discriminate].
  destruct (strip_method r0) as [rec|] eqn:E10; cbn [bind]; [|discriminate].
  destruct (getitem parsed (lit "confidence")) as [conf|] eqn:E11;
    cbn [bind]; [|discriminate].
  destruct (py_int temp) as [T|] eqn:E12; cbn [bind]; [|discriminate].
  destruct (py_int humid) as [H|] eqn:E13; cbn [bind]; [|discriminate].
  destruct (py_int proxy) as [P|] eqn:E14; cbn [bind]; [|discriminate].
  intros Hc. injection Hc as <-.
  apply strip_method_Return in E8 as (text0 & -> & ->).
  apply strip_method_Return in E10 as (rec0 & -> & ->).
  exists body, parsed, text0, rec0. constructor; simpl; auto.
Qed.

(** A success response means a completed run and one appended row. *)
Lemma serve_post_success llm now req db pl st db' :
  serve p (POST_data now llm req) db = (Jsonify pl st, db') ->
  exists c,
    interpret p llm req = Return c /\ accepted (new_of c) /\ st = 200 /\
    pl = payload (next_id db) (c_text c) (c_recommendation c)
                 (c_confidence c) /\
    db' = db ++ [row_of c (next_id db) now].
Proof.
  rewrite serve_post.
  destruct (interpret p llm req) as [c|e] eqn:Ei.
  - destruct (add_commit_cases now (new_of c) db) as [[Ha Hc]|[e Hc]];
      rewrite Hc.
    + intros H. injection H as <- <- <-. exists c.
      split; [reflexivity|]. split; [exact Ha|]. repeat split.
    + intros H. injection H as H _.
      exfalso. eapply handle_exception_not_json; eauto.
  - intros H. injection H as H _.
    exfalso. eapply handle_exception_not_json; eauto.
Qed.

(** Anything else leaves the table as it was. *)
Lemma serve_post_failure llm now req db :
  (exists pl st db', serve p (POST_data now llm req) db = (Jsonify pl st, db'))
  \/ (exists e, serve p (POST_data now llm req) db = (handle_exception e, db)).
Proof.
  rewrite serve_post.
  destruct (interpret p llm req) as [c|e]; [|right; eauto].
  destruct (add_commit now (new_of c) db) as [[row db']|e]; [left|right]; eauto.
Qed.

Lemma getitem_exceptions v k e :
  getitem v k = Raise e -> e = KeyError k \/ e = TypeError.
Proof.
  destruct v; simpl; try (intros H; injection H as <-; now right).
  destruct (dict_get k d); simpl; [discriminate|].
  intros H; injection H as <-; now left.
Qed.

Lemma py_float_input_error v e : py_float v = Raise e -> input_error e.
Proof.
  destruct v; simpl; try discriminate;
    try (intros H; injection H as <-; exact I).
  - destruct (float_of_int z); simpl; [discriminate|].
    intros H; injection H as <-; exact I.
  - destruct (float_of_str s); simpl; [discriminate|].
    intros H; injection H as <-; exact I.
Qed.

Lemma input_error_500 e : input_error e -> handle_exception e = ErrorPage 500 e.
Proof. destruct e; simpl; try contradiction; reflexivity. Qed.

End Cycles.

(** ** Requests that carry three numbers

    On the deployed template such a request gets as far as [report], which
    raises the KeyError of [prompt.format]; the view has no handler, so the
    answer is the error page. *)
Lemma deployed_post_KeyError (R : Runtime) (now : Z) (llm : LLM)
    (req : Request) (db : Store) (body temp humid proxy : pyval)
    (t h x : pyfloat) :
  get_json req = Return body ->
  getitem body (lit "Temp") = Return temp ->
  getitem body (lit "Humid") = Return humid ->
  getitem body (lit "Proxy") = Return proxy ->
  py_float temp = Return t ->
  py_float humid = Return h ->
  py_float proxy = Return x ->
  serve prompt (POST_data now llm req) db
  = (ErrorPage 500 (KeyError (qlit "`text`")), db).
Proof.
  intros Hb H1 H2 H3 Ht Hh Hx. rewrite serve_post. unfold interpret.
  rewrite Hb; cbn [bind]. rewrite H1; cbn [bind]. rewrite H2; cbn [bind].
  rewrite H3; cbn [bind].
  rewrite (deployed_report_KeyError R llm temp humid proxy t h x Ht Hh Hx).
  reflexivity.
Qed.

(** C1 on the deployed template.  For every POST to /data whose body is a
    JSON object with numbers under Temp, Humid and Proxy, and for every
    model, whatever it would answer, the response is the error page with
    status 500 for the KeyError of [prompt.format], not 200, and the table
    is as it was: no row is inserted. *)
Theorem C1_deployed_post_with_numbers_is_500
    (R : Runtime) (now : Z) (llm : LLM) (req : Request) (db : Store)
    (body temp humid proxy : pyval) (t h x : pyfloat) :
  get_json req = Return body ->
  getitem body (lit "Temp") = Return temp ->
  getitem body (lit "Humid") = Return humid ->
  getitem body (lit "Proxy") = Return proxy ->
  py_float temp = Return t ->
  py_float humid = Return h ->
  py_float proxy = Return x ->
  serve prompt (POST_data now llm req) db
  = (ErrorPage 500 (KeyError (qlit "`text`")), db) /\
  status_code (fst (serve prompt (POST_data now llm req) db)) = Some 500.
Proof.
  intros Hb H1 H2 H3 Ht Hh Hx.
  rewrite (deployed_post_KeyError R now llm req db body temp humid proxy
             t h x Hb H1 H2 H3 Ht Hh Hx).
  split; reflexivity.
Qed.

(** The first end-to-end scenario: the body with 25, 40 and 3, and a
    model that answers with the structured result of the scenario. *)
Lemma C1_witness :
  @json_loads Ref.RefRuntime Ref.answer_mild
    = Return (PDict [(lit "text", PStr (lit "Mild day."));
                     (lit "recommendation", PStr (lit "Stay hydrated."));
                     (lit "confidence", PInt 80)]) /\
  @serve Ref.RefRuntime (@prompt Ref.RefRuntime)
    (POST_data 7 (Ref.llm_answers Ref.answer_mild)
       (@json_request Ref.RefRuntime Ref.body_25_40_3)) []
  = (ErrorPage 500 (KeyError (qlit "`text`")), []) /\
  status_code
    (fst (@serve Ref.RefRuntime (@prompt Ref.RefRuntime)
            (POST_data 7 (Ref.llm_answers Ref.answer_mild)
               (@json_request Ref.RefRuntime Ref.body_25_40_3)) []))
  = Some 500.
Proof.
  split; [vm_compute; reflexivity|].
  eapply (C1_deployed_post_with_numbers_is_500 Ref.RefRuntime 7
           (Ref.llm_answers Ref.answer_mild)
           (@json_request Ref.RefRuntime Ref.body_25_40_3) []
           (PDict [(lit "Temp", PInt 25); (lit "Humid", PInt 40);
                   (lit "Proxy", PInt 3)])
           (PInt 25) (PInt 40) (PInt 3)
           _ _ _);
    vm_compute; reflexivity.
Defined.

(** C4 as the code has it.  When the decoded body lacks Temp, Humid or
    Proxy (or is not an object), or holds a value that [float] rejects, the
    exception escapes the view: the response is 500, not 400, and the table
    is unchanged. *)
Theorem C4_missing_or_unconvertible_field_is_500
    (R : Runtime) (p : PromptTemplate) (llm : LLM) (now : Z) (req : Request)
    (db : Store) (body : pyval) :
  get_json req = Return body ->
  (exists e, getitem body (lit "Temp") = Raise e) \/
  (exists e, getitem body (lit "Humid") = Raise e) \/
  (exists e, getitem body (lit "Proxy") = Raise e) \/
  (exists temp humid proxy,
     getitem body (lit "Temp") = Return temp /\
     getitem body (lit "Humid") = Return humid /\
     getitem body (lit "Proxy") = Return proxy /\
     ((exists e, py_float temp = Raise e) \/
      (exists e, py_float humid = Raise e) \/
      (exists e, py_float proxy = Raise e))) ->
  exists e,
    input_error e /\
    serve p (POST_data now llm req) db = (ErrorPage 500 e, db).
Proof.
  intros Hb H. rewrite serve_post.
  assert (Hi : exists e, input_error e /\ interpret p llm req = Raise e).
  { unfold interpret. rewrite Hb; cbn [bind].
    destruct (getitem body (lit "Temp")) as [temp|e1] eqn:E1; cbn [bind].
    2: { exists e1. split; [|reflexivity].
         destruct (getitem_exceptions _ _ _ E1) as [->| ->]; exact I. }
    destruct (getitem body (lit "Humid")) as [humid|e2] eqn:E2; cbn [bind].
    2: { exists e2. split; [|reflexivity].
         destruct (getitem_exceptions _ _ _ E2) as [->| ->]; exact I. }
    destruct (getitem body (lit "Proxy")) as [proxy|e3] eqn:E3; cbn [bind].
    2: { exists e3. split; [|reflexivity].
         destruct (getitem_exceptions _ _ _ E3) as [->| ->]; exact I. }
    destruct H as [[e H]|[[e H]|[[e H]|H]]]; try discriminate.
    destruct H as (t' & h' & x' & Ht & Hh & Hx & Hf).
    injection Ht as <-. injection Hh as <-. injection Hx as <-.
    destruct (report_float_failure R p llm temp humid proxy Hf)
      as (e & Hr & _ & Hc).
    rewrite Hr; cbn [bind]. exists e. split; [|reflexivity].
    destruct Hc as [Hc|[Hc|Hc]]; eapply py_float_input_error; eauto. }
  destruct Hi as (e & He & Hi). rewrite Hi. exists e. split; [exact He|].
  now rewrite input_error_500.
Qed.

Lemma C4_witness :
  exists e,
    input_error e /\
    @serve Ref.RefRuntime (@prompt Ref.RefRuntime)
      (POST_data 7 (Ref.llm_answers Ref.answer_mild)
         (@json_request Ref.RefRuntime Ref.body_no_proxy)) []
    = (ErrorPage 500 e, []).
Proof.
  apply (C4_missing_or_unconvertible_field_is_500 Ref.RefRuntime
           (@prompt Ref.RefRuntime) (Ref.llm_answers Ref.answer_mild) 7
           (@json_request Ref.RefRuntime Ref.body_no_proxy) []
           (PDict [(lit "Temp", PInt 25); (lit "Humid", PInt 40)])).
  - vm_compute. reflexivity.
  - right. right. left. exists (KeyError (lit "Proxy")).
    vm_compute. reflexivity.
Defined.

(** The second end-to-end scenario on the deployed application: the
    response is 500 with the KeyError of the missing field. *)
Lemma C4_counterexample :
  @serve Ref.RefRuntime (@prompt Ref.RefRuntime)
    (POST_data 7 (Ref.llm_answers Ref.answer_mild)
       (@json_request Ref.RefRuntime Ref.body_no_proxy)) []
  = (ErrorPage 500 (KeyError (lit "Proxy")), []) /\
  status_code (ErrorPage 500 (KeyError (lit "Proxy"))) <> Some 400.
Proof. split; [vm_compute; reflexivity | discriminate]. Qed.

(** A numeric string and a boolean pass [float] and [int] like numbers,
    so a request that carries them ends like one that carries numbers; a
    body that is not JSON is the one request answered with 400. *)
Example requests_without_numbers :
  @py_float Ref.RefRuntime (PStr (lit "25"))
    = Return (Ref.decimal false 25 0) /\
  @py_int Ref.RefRuntime (PStr (lit "25")) = Return 25 /\
  @py_float Ref.RefRuntime (PBool true) = Return (FFin false 1 0) /\
  @py_int Ref.RefRuntime (PBool true) = Return 1 /\
  @serve Ref.RefRuntime (@prompt Ref.RefRuntime)
    (POST_data 7 (Ref.llm_answers Ref.answer_mild)
       (@json_request Ref.RefRuntime Ref.body_not_numbers)) []
  = (ErrorPage 500 (KeyError (qlit "`text`")), []) /\
  @serve Ref.RefRuntime (@prompt Ref.RefRuntime)
    (POST_data 7 (Ref.llm_answers Ref.answer_mild)
       (@json_request Ref.RefRuntime Ref.body_not_json)) []
  = (ErrorPage 400 (HTTPException 400), []).
Proof. repeat split; vm_compute; reflexivity. Qed.

(** C7 on the deployed template.  When the body carries three numbers and
    the model answers with a structured result (an object with strings
    under text and recommendation and a value under confidence), the
    handler does not get to it: the response is the error page for the
    KeyError of [prompt.format], and the table holds no row made of that
    answer, trimmed or not, with any confidence. *)
Theorem C7_deployed_post_never_reaches_the_answer
    (R : Runtime) (now : Z) (llm : LLM) (req : Request) (db : Store)
    (body temp humid proxy : pyval) (t h x : pyfloat)
    (resp text0 rec0 : pystr) (parsed conf : pyval) :
  get_json req = Return body ->
  getitem body (lit "Temp") = Return temp ->
  getitem body (lit "Humid") = Return humid ->
  getitem body (lit "Proxy") = Return proxy ->
  py_float temp = Return t ->
  py_float humid = Return h ->
  py_float proxy = Return x ->
  (forall q, invoke llm q = Return resp) ->
  json_loads resp = Return parsed ->
  getitem parsed (lit "text") = Return (PStr text0) ->
  getitem parsed (lit "recommendation") = Return (PStr rec0) ->
  getitem parsed (lit "confidence") = Return conf ->
  serve prompt (POST_data now llm req) db
  = (ErrorPage 500 (KeyError (qlit "`text`")), db) /\
  forall row, In row (snd (serve prompt (POST_data now llm req) db)) ->
              In row db.
Proof.
  intros Hb H1 H2 H3 Ht Hh Hx _ _ _ _ _.
  rewrite (deployed_post_KeyError R now llm req db body temp humid proxy
             t h x Hb H1 H2 H3 Ht Hh Hx).
  split; [reflexivity | intros row Hr; exact Hr].
Qed.

(** The body with 25, 40 and 3, and an answer with white space around its
    strings and a confidence of 250. *)
Lemma C7_witness :
  @serve Ref.RefRuntime (@prompt Ref.RefRuntime)
    (POST_data 7 (Ref.llm_answers Ref.answer_padded)
       (@json_request Ref.RefRuntime Ref.body_25_40_3)) []
  = (ErrorPage 500 (KeyError (qlit "`text`")), []) /\
  forall row,
    In row (snd (@serve Ref.RefRuntime (@prompt Ref.RefRuntime)
                   (POST_data 7 (Ref.llm_answers Ref.answer_padded)
                      (@json_request Ref.RefRuntime Ref.body_25_40_3)) [])) ->
    In row [].
Proof.
  eapply (C7_deployed_post_never_reaches_the_answer Ref.RefRuntime 7
           (Ref.llm_answers Ref.answer_padded)
           (@json_request Ref.RefRuntime Ref.body_25_40_3) []
           (PDict [(lit "Temp", PInt 25); (lit "Humid", PInt 40);
                   (lit "Proxy", PInt 3)])
           (PInt 25) (PInt 40) (PInt 3)
           _ _ _
           Ref.answer_padded [32; 32; 77; 105; 108; 100; 32; 100; 97; 121;
                              46; 32]%N
           [32; 83; 116; 97; 121; 32; 104; 121; 100; 114; 97; 116; 101;
            100; 46; 10]%N
           (PDict [(lit "text",
                    PStr [32; 32; 77; 105; 108; 100; 32; 100; 97; 121; 46;
                          32]%N);
                   (lit "recommendation",
                    PStr [32; 83; 116; 97; 121; 32; 104; 121; 100; 114; 97;
                          116; 101; 100; 46; 10]%N);
                   (lit "confidence", PInt 250)])
           (PInt 250));
    try (intros q); vm_compute; reflexivity.
Defined.



(** What the column [Confid] makes of a confidence: the text 90, the
    float 80.0 and [true] become integers; 80.5 and a word stay. *)
Example integer_column_examples :
  Ref.ref_sql_integer (PStr (lit "90")) = PInt 90 /\
  Ref.ref_sql_integer (PFloat (Ref.decimal false 80 0)) = PInt 80 /\
  Ref.ref_sql_integer (PBool true) = PInt 1 /\
  Ref.ref_sql_integer (PInt 250) = PInt 250 /\
  Ref.ref_sql_integer (PFloat (Ref.decimal false 805 (-1)))
    = PFloat (Ref.decimal false 805 (-1)) /\
  Ref.ref_sql_integer (PStr (lit "high")) = PStr (lit "high").
Proof. repeat split; vm_compute; reflexivity. Qed.

(** 25.9 becomes 25 and -40.5 becomes -40. *)
Example truncation_examples :
  @py_int Ref.RefRuntime (PFloat (Ref.decimal false 259 (-1))) = Return 25 /\
  @py_int Ref.RefRuntime (PFloat (Ref.decimal true 405 (-1))) = Return (-40) /\
  @py_int Ref.RefRuntime (PFloat (Ref.decimal true 999 (-3))) = Return 0.
Proof. repeat split; vm_compute; reflexivity. Qed.

(** C9.  Whatever the call, the table afterwards is the table before, or
    the table before with one row appended.  A row is appended only
    together with a success response, by a run of the view that completed
    every step; all its columns come from that run, its confidence is not
    null and its key is larger than every key in use.  In every other case,
    whichever step failed, the table is unchanged.  No call changes or
    removes a row. *)
Theorem C9_rows_are_appended_whole_or_not_at_all
    (R : Runtime) (p : PromptTemplate) (c : Call) (db : Store) :
  match fst (serve p c db) with
  | Jsonify pl st =>
    exists now llm req cyc,
      c = POST_data now llm req /\
      interpret p llm req = Return cyc /\
      accepted (new_of cyc) /\
      st = 200 /\
      snd (serve p c db) = db ++ [row_of cyc (next_id db) now] /\
      c_confidence cyc <> PNone /\
      forall r, In r db -> id r < next_id db
  | _ => snd (serve p c db) = db
  end.
Proof.
  destruct c as [|now llm req].
  - reflexivity.
  - destruct (serve_post_failure p llm now req db)
      as [(pl & st & db' & H)|(e & H)]; rewrite H; cbn [fst snd].
    + destruct (serve_post_success p llm now req db pl st db' H)
        as (cyc & Hi & Ha & -> & -> & ->).
      exists now, llm, req, cyc.
      split; [reflexivity|]. split; [exact Hi|]. split; [exact Ha|].
      split; [reflexivity|]. split; [reflexivity|]. split.
      * destruct Ha as (_ & _ & _ & _ & _ & Hn).
        exact (bind_param_not_null _ Hn).
      * intros r Hr. pose proof (max_id_ge db r Hr). unfold next_id. lia.
    + destruct (handle_exception e) eqn:E; try reflexivity.
      exfalso. eapply handle_exception_not_json; eauto.
Qed.

(** The keys of every table the application can reach are distinct and
    positive. *)
Lemma reachable_keys (R : Runtime) (p : PromptTemplate) (db : Store) :
  reachable p db ->
  NoDup (map id db) /\ Forall (fun r => 0 < id r) db.
Proof.
  induction 1 as [|c db Hr [IHn IHp]]; [split; constructor|].
  destruct c as [|now llm req]; [exact (conj IHn IHp)|].
  destruct (serve_post_failure p llm now req db)
    as [(pl & st & db' & H)|(e & H)]; rewrite H; cbn [snd];
    [|exact (conj IHn IHp)].
  destruct (serve_post_success p llm now req db pl st db' H)
    as (cyc & _ & _ & _ & _ & ->).
  split.
  - rewrite map_app. cbn [map row_of id].
    apply (Permutation_NoDup (l := next_id db :: map id db)).
    + rewrite Permutation_app_comm. reflexivity.
    + constructor; [|exact IHn].
      intros Hin. apply in_map_iff in Hin as (r & Hid & Hin).
      pose proof (max_id_ge db r Hin). unfold next_id in Hid. lia.
  - apply Forall_app. split; [exact IHp|].
    constructor; [|constructor]. cbn [row_of id]. unfold next_id.
    pose proof (max_id_positive db IHp). lia.
Qed.

(** C5.  On a table whose keys are distinct, the query of the dashboard
    returns at most 20 rows of the table, strictly descending by key, and
    they are the rows with the largest keys; the latest row is a row with
    the greatest key, and there is none exactly when the table is empty. *)
Theorem C5_recent_rows_and_latest (db : Store) :
  NoDup (map id db) ->
  let Items := all (limit 20 (order_by_id_desc db)) in
  let latest := first (order_by_id_desc db) in
  index db = Return (Rendered (lit "index.html") latest Items, db) /\
  (length Items <= 20)%nat /\
  length Items = Nat.min 20 (length db) /\
  StronglySorted gt_id Items /\
  (forall r, In r Items -> In r db) /\
  (forall r r', In r Items -> In r' db -> ~ In r' Items -> id r' < id r) /\
  (latest = None <-> db = []) /\
  (forall r, latest = Some r ->
             In r db /\ forall r', In r' db -> id r' <= id r).
Proof.
  intros ND Items latest. subst Items latest. unfold all, limit, first.
  pose proof (order_by_perm db) as HP.
  pose proof (order_by_strict db ND) as HS.
  set (q := order_by_id_desc db) in *.
  split; [reflexivity|].
  split; [apply firstn_le_length|].
  split; [rewrite length_firstn, (Permutation_length HP); reflexivity|].
  split; [now apply sorted_firstn|].
  split.
  { intros r Hr. apply (Permutation_in _ (Permutation_sym HP)).
    rewrite <- (firstn_skipn 20 q). apply in_or_app. now left. }
  split.
  { intros r r' Hr Hr' Hn.
    apply (Permutation_in _ HP) in Hr'.
    rewrite <- (firstn_skipn 20 q) in Hr', HS.
    apply in_app_or in Hr' as [Hr'|Hr']; [contradiction|].
    exact (sorted_app_inv gt_id _ _ HS r r' Hr Hr'). }
  split.
  { split.
    - destruct q as [|r q'] eqn:Eq; simpl; [|discriminate].
      intros _. apply Permutation_sym, Permutation_nil in HP. exact HP.
    - intros ->. subst q. reflexivity. }
  intros r Hl. destruct q as [|r0 q'] eqn:Eq; simpl in Hl; [discriminate|].
  injection Hl as ->. split.
  - apply (Permutation_in _ (Permutation_sym HP)). now left.
  - intros r' Hr'. apply (Permutation_in _ HP) in Hr'.
    destruct Hr' as [<-|Hr']; [lia|].
    inversion HS as [|? ? _ Hall]; subst.
    rewrite Forall_forall in Hall. specialize (Hall r' Hr').
    unfold gt_id in Hall. lia.
Qed.

Lemma C5_witness :
  NoDup (map id Ref.three_rows) /\
  index Ref.three_rows
  = Return (Rendered (lit "index.html")
              (first (order_by_id_desc Ref.three_rows))
              (all (limit 20 (order_by_id_desc Ref.three_rows))),
            Ref.three_rows) /\
  (length (all (limit 20 (order_by_id_desc Ref.three_rows))) <= 20)%nat /\
  length (all (limit 20 (order_by_id_desc Ref.three_rows)))
  = Nat.min 20 (length Ref.three_rows) /\
  StronglySorted gt_id (all (limit 20 (order_by_id_desc Ref.three_rows))) /\
  (forall r, In r (all (limit 20 (order_by_id_desc Ref.three_rows))) ->
             In r Ref.three_rows) /\
  (forall r r',
     In r (all (limit 20 (order_by_id_desc Ref.three_rows))) ->
     In r' Ref.three_rows ->
     ~ In r' (all (limit 20 (order_by_id_desc Ref.three_rows))) ->
     id r' < id r) /\
  (first (order_by_id_desc Ref.three_rows) = None <-> Ref.three_rows = []) /\
  (forall r, first (order_by_id_desc Ref.three_rows) = Some r ->
             In r Ref.three_rows /\
             forall r', In r' Ref.three_rows -> id r' <= id r).
Proof.
  assert (ND : NoDup (map id Ref.three_rows)).
  { simpl. repeat constructor; simpl; intuition lia. }
  split; [exact ND|].
  apply (C5_recent_rows_and_latest Ref.three_rows ND).
Defined.

(** The dashboard on that table: newest first, and row 3 is the latest. *)
Example dashboard_three_rows :
  map id (all (limit 20 (order_by_id_desc Ref.three_rows))) = [3; 2; 1] /\
  option_map id (first (order_by_id_desc Ref.three_rows)) = Some 3.
Proof. split; reflexivity. Qed.

(** ** The deployed application *)

(** With the template as it is in the repository, every POST to /data is
    answered with an error page and no call ever changes the table. *)
Lemma deployed_post_fails (R : Runtime) (now : Z) (llm : LLM) (req : Request)
    (db : Store) :
  exists e, serve prompt (POST_data now llm req) db = (handle_exception e, db).
Proof.
  rewrite serve_post.
  assert (Hi : exists e, interpret prompt llm req = Raise e).
  { unfold interpret.
    destruct (get_json req) as [body|e]; cbn [bind]; [|eauto].
    destruct (getitem body (lit "Temp")) as [temp|e]; cbn [bind]; [|eauto].
    destruct (getitem body (lit "Humid")) as [humid|e]; cbn [bind]; [|eauto].
    destruct (getitem body (lit "Proxy")) as [proxy|e]; cbn [bind]; [|eauto].
    destruct (deployed_report_raises R llm temp humid proxy) as (e & He & _).
    rewrite He. cbn [bind]. eauto. }
  destruct Hi as (e & Hi). rewrite Hi. eauto.
Qed.

Lemma deployed_table_never_changes (R : Runtime) (db : Store) :
  reachable prompt db -> db = [].
Proof.
  induction 1 as [|c db Hr IH]; [reflexivity|].
  destruct c as [|now llm req]; [exact IH|].
  destruct (deployed_post_fails R now llm req db) as (e & He).
  rewrite He. exact IH.
Qed.

(* ===================================================================== *)
(** * Further properties of the store and the views                       *)
(* ===================================================================== *)

(** One call either answers with success and appends one row, or leaves
    the table alone. *)
Lemma serve_step (R : Runtime) (p : PromptTemplate) (c : Call) (db : Store) :
  (is_success (fst (serve p c db)) = true /\ is_post c = true /\
   exists cyc now, snd (serve p c db) = db ++ [row_of cyc (next_id db) now])
  \/ (is_success (fst (serve p c db)) = false /\ snd (serve p c db) = db).
Proof.
  destruct c as [|now llm req]; [right; split; reflexivity|].
  destruct (serve_post_failure p llm now req db)
    as [(pl & st & db' & H)|(e & H)]; rewrite H; cbn [fst snd].
  - destruct (serve_post_success p llm now req db pl st db' H)
      as (cyc & _ & _ & _ & _ & ->).
    left. repeat split. eauto.
  - right. split; [|reflexivity].
    destruct e; reflexivity.
Qed.

(** X3.  Over any sequence of calls the table only grows at its end: the
    rows it had are still there, unchanged and in place, and the number of
    rows added is the number of success responses, which is at most the
    number of POST calls. *)
Theorem X3_table_grows_by_one_row_per_success
    (R : Runtime) (p : PromptTemplate) (cs : list Call) (db : Store) :
  exists rows,
    snd (serve_all p cs db) = db ++ rows /\
    length rows = count is_success (fst (serve_all p cs db)) /\
    (length rows <= count is_post cs)%nat.
Proof.
  revert db. induction cs as [|c cs IH]; intros db.
  - exists []. simpl. rewrite app_nil_r. repeat split; auto.
  - simpl. destruct (serve p c db) as [r db1] eqn:Es.
    destruct (IH db1) as (rows & Hd & Hn & Hp).
    destruct (serve_all p cs db1) as [rs db2]. cbn [fst snd] in *.
    unfold count in *. cbn [filter length].
    pose proof (serve_step R p c db) as Hs. rewrite Es in Hs.
    cbn [fst snd] in Hs.
    destruct Hs as [(Hr & Hc & cyc & now & ->)|(Hr & ->)]; rewrite Hr.
    + exists (row_of cyc (next_id db) now :: rows).
      rewrite Hd, <- app_assoc, Hc. cbn [length app].
      repeat split; auto; lia.
    + exists rows. rewrite Hd. repeat split; auto.
      destruct (is_post c); cbn [length]; lia.
Qed.

(** X13.  While the table has at most 20 rows the dashboard lists every
    row, each once. *)
Theorem X13_small_table_is_listed_whole (db : Store) :
  (length db <= 20)%nat ->
  Permutation (all (limit 20 (order_by_id_desc db))) db.
Proof.
  intros H. unfold all, limit.
  pose proof (order_by_perm db) as HP.
  rewrite firstn_all2 by (rewrite <- (Permutation_length HP); exact H).
  now apply Permutation_sym.
Qed.

Lemma X13_witness :
  Permutation (all (limit 20 (order_by_id_desc Ref.three_rows)))
    Ref.three_rows.
Proof.
  apply (X13_small_table_is_listed_whole Ref.three_rows).
  simpl. lia.
Defined.

Lemma sorted_perm_unique (l1 l2 : list Data) :
  StronglySorted gt_id l1 -> StronglySorted gt_id l2 ->
  Permutation l1 l2 -> l1 = l2.
Proof.
  revert l2. induction l1 as [|a t1 IH]; intros l2 H1 H2 HP.
  - apply Permutation_nil in HP. now subst.
  - destruct l2 as [|b t2];
      [apply Permutation_sym, Permutation_nil in HP; discriminate|].
    inversion H1 as [|? ? H1s H1a]; subst.
    inversion H2 as [|? ? H2s H2a]; subst.
    rewrite Forall_forall in H1a, H2a.
    assert (a = b) as ->.
    { assert (Ha : In a (b :: t2))
        by (apply (Permutation_in _ HP); now left).
      assert (Hb : In b (a :: t1))
        by (apply (Permutation_in _ (Permutation_sym HP)); now left).
      destruct Ha as [Ha|Ha]; [now symmetry|].
      destruct Hb as [Hb|Hb]; [exact Hb|].
      specialize (H1a b Hb). specialize (H2a a Ha).
      unfold gt_id in *. lia. }
    f_equal. apply IH; auto. now apply Permutation_cons_inv in HP.
Qed.

(** X14.  What the dashboard shows depends on the rows of the table only,
    not on the order in which the table holds them. *)
Theorem X14_dashboard_ignores_storage_order (db db' : Store) :
  NoDup (map id db) -> Permutation db db' ->
  exists latest Items,
    index db = Return (Rendered (lit "index.html") latest Items, db) /\
    index db' = Return (Rendered (lit "index.html") latest Items, db').
Proof.
  intros ND HP.
  assert (ND' : NoDup (map id db')).
  { eapply Permutation_NoDup; [|exact ND]. now apply Permutation_map. }
  assert (E : order_by_id_desc db' = order_by_id_desc db).
  { apply sorted_perm_unique; try now apply order_by_strict.
    transitivity db'; [apply Permutation_sym, order_by_perm|].
    transitivity db; [now apply Permutation_sym | apply order_by_perm]. }
  unfold index. rewrite E. eauto.
Qed.

Lemma X14_witness :
  exists latest Items,
    index Ref.three_rows
    = Return (Rendered (lit "index.html") latest Items, Ref.three_rows) /\
    index (rev Ref.three_rows)
    = Return (Rendered (lit "index.html") latest Items, rev Ref.three_rows).
Proof.
  apply (X14_dashboard_ignores_storage_order Ref.three_rows
           (rev Ref.three_rows)).
  - simpl. repeat constructor; simpl; intuition lia.
  - apply Permutation_rev.
Defined.

(* ===================================================================== *)
(** * Further properties of the handler                                   *)
(* ===================================================================== *)

(** X4.  What [report] returns is the answer of the model, character for
    character, or the string "Error.", never anything else; and what it
    raises was raised before its [try], by a conversion or by
    [prompt.format], or is not an [Exception]. *)
Theorem X4_report_returns_answer_or_sentinel
    (R : Runtime) (p : PromptTemplate) (llm : LLM)
    (temp humid proxy : pyval) :
  match report p llm temp humid proxy with
  | Return s =>
    s = lit "Error." \/
    exists prompt_,
      report_prompt p temp humid proxy = Return prompt_ /\
      invoke llm prompt_ = Return s
  | Raise e =>
    report_prompt p temp humid proxy = Raise e \/ is_Exception e = false
  end.
Proof.
  rewrite report_split.
  destruct (report_prompt p temp humid proxy) as [prompt_|e0]; cbn [bind];
    [|now left].
  destruct (invoke llm prompt_) as [resp|e] eqn:Ei; cbn [bind try_except].
  - destruct (json_loads resp) as [v|e]; cbn [bind try_except];
      [right; eauto|].
    destruct (is_JSONDecodeError e); cbn [try_except]; [right; eauto|].
    destruct (is_Exception e) eqn:Ee; [now left | now right].
  - destruct (is_Exception e) eqn:Ee; [now left | now right].
Qed.

Lemma py_int_non_finite (R : Runtime) v n :
  non_finite v -> py_int v <> Return n.
Proof.
  destruct v as [| | |f| | |]; simpl; try contradiction.
  destruct f; simpl; try contradiction; discriminate.
Qed.

(** X9.  A request in which Temp, Humid or Proxy is NaN or an infinity is
    never stored and never answered with success, whatever the model says:
    [float] takes the value, [int] does not. *)
Theorem X9_non_finite_reading_is_never_stored
    (R : Runtime) (p : PromptTemplate) (llm : LLM) (now : Z) (req : Request)
    (db : Store) (body v : pyval) :
  get_json req = Return body ->
  non_finite v ->
  getitem body (lit "Temp") = Return v \/
  getitem body (lit "Humid") = Return v \/
  getitem body (lit "Proxy") = Return v ->
  is_success (fst (serve p (POST_data now llm req) db)) = false /\
  snd (serve p (POST_data now llm req) db) = db.
Proof.
  intros Hb Hv Hg.
  destruct (serve_post_failure p llm now req db)
    as [(pl & st & db' & H)|(e & H)].
  - exfalso.
    destruct (serve_post_success p llm now req db pl st db' H)
      as (c & Hi & _).
    destruct (interpret_inv p llm req c Hi) as (body' & parsed & t0 & r0 & Hc).
    destruct Hc as [H1 H2 H3 H4 _ _ _ _ _ _ _ H12 H13 H14].
    rewrite Hb in H1. injection H1 as <-.
    destruct Hg as [Hg|[Hg|Hg]].
    + rewrite Hg in H2. injection H2 as E. rewrite <- E in H12.
      exact (py_int_non_finite R v _ Hv H12).
    + rewrite Hg in H3. injection H3 as E. rewrite <- E in H13.
      exact (py_int_non_finite R v _ Hv H13).
    + rewrite Hg in H4. injection H4 as E. rewrite <- E in H14.
      exact (py_int_non_finite R v _ Hv H14).
  - rewrite H. cbn [fst snd]. split; [|reflexivity].
    destruct e; reflexivity.
Qed.

Lemma X9_witness :
  is_success
    (fst (@serve Ref.RefRuntime (@prompt Ref.RefRuntime)
            (POST_data 7 (Ref.llm_answers Ref.answer_mild)
               (@json_request Ref.RefRuntime Ref.body_nan)) [])) = false /\
  snd (@serve Ref.RefRuntime (@prompt Ref.RefRuntime)
         (POST_data 7 (Ref.llm_answers Ref.answer_mild)
            (@json_request Ref.RefRuntime Ref.body_nan)) []) = [].
Proof.
  apply (X9_non_finite_reading_is_never_stored Ref.RefRuntime
           (@prompt Ref.RefRuntime) (Ref.llm_answers Ref.answer_mild) 7
           (@json_request Ref.RefRuntime Ref.body_nan) []
           (PDict [(lit "Temp", PInt 25); (lit "Humid", PFloat FNan);
                   (lit "Proxy", PInt 3)])
           (PFloat FNan)).
  - vm_compute. reflexivity.
  - exact I.
  - right. left. vm_compute. reflexivity.
Defined.

Lemma lstrip_keeps s :
  match s with
  | [] => True
  | c :: _ => isspace c = false
  end -> lstrip s = s.
Proof. destruct s as [|c t]; simpl; [reflexivity|]. now intros ->. Qed.

(** X10.  Stripping leaves a string as it is exactly when the string has
    no white space at either end; in particular stripping twice is
    stripping once. *)
Theorem X10_strip_fixes_exactly_the_trimmed (s : pystr) :
  (strip s = s <-> trimmed s) /\ strip (strip s) = strip s.
Proof.
  assert (Hfix : forall u, trimmed u -> strip u = u).
  { intros u Hu. unfold strip, rstrip. destruct u as [|c t]; [reflexivity|].
    destruct Hu as [Hc Hl].
    rewrite (lstrip_keeps (c :: t) Hc).
    assert (Hr : rev (c :: t) = last (c :: t) c :: rev (removelast (c :: t))).
    { rewrite (app_removelast_last c (l := c :: t)) at 1 by discriminate.
      rewrite rev_app_distr. reflexivity. }
    rewrite lstrip_keeps; [apply rev_involutive|].
    rewrite Hr. exact Hl. }
  split; [split|].
  - intros H. rewrite <- H. apply strip_trimmed.
  - apply Hfix.
  - apply Hfix, strip_trimmed.
Qed.

(* ===================================================================== *)
(** * Further properties of the formatter                                 *)
(* ===================================================================== *)

Section Format.
Context {R : Runtime}.
Variable kw : kwargs.

Lemma emit_acc name conv spec out0 out :
  emit kw name conv spec (out0 ++ out) =
  match emit kw name conv spec out0 with
  | Return (st, o) => Return (st, o ++ out)
  | Raise e => Raise e
  end.
Proof.
  unfold emit. destruct (render_field kw (rev name) conv (rev spec)); simpl;
    [|reflexivity].
  rewrite !rev_append_rev, app_assoc. reflexivity.
Qed.

Lemma step_acc st out0 out c :
  step kw st (out0 ++ out) c =
  match step kw st out0 c with
  | Return (st', o) => Return (st', o ++ out)
  | Raise e => Raise e
  end.
Proof.
  destruct st; unfold step, step_name;
    repeat match goal with
    | |- context [if ?b then _ else _] => destruct b
    | |- context [match ?d with O => _ | S _ => _ end] => destruct d
    end; try reflexivity; apply emit_acc.
Qed.

(** The output so far is only ever extended. *)
Lemma run_acc s : forall st out0 out,
  run kw st (out0 ++ out) s =
  match run kw st out0 s with
  | Return r => Return (rev out ++ r)
  | Raise e => Raise e
  end.
Proof.
  induction s as [|c s IH]; intros st out0 out; simpl.
  - destruct st; simpl; try reflexivity. now rewrite rev_app_distr.
  - rewrite step_acc. destruct (step kw st out0 c) as [[st' o]|e];
      [apply IH | reflexivity].
Qed.

(** A part of the template that formats on its own formats the same way
    in front of any other text. *)
Lemma run_app a : forall st out r b,
  run kw st out a = Return r ->
  run kw st out (a ++ b) = run kw SLit (rev r) b.
Proof.
  induction a as [|c a IH]; intros st out r b H; simpl in *.
  - destruct st; simpl in H; try discriminate.
    injection H as <-. now rewrite rev_involutive.
  - destruct (step kw st out c) as [[st' o]|e]; [now apply IH | discriminate].
Qed.

Lemma name_char_inv c :
  name_char c = true ->
  (c =? c_open)%N = false /\ (c =? c_close)%N = false /\
  (c =? c_colon)%N = false /\ (c =? c_bang)%N = false /\
  (c =? c_lbr)%N = false /\ (c =? c_dot)%N = false.
Proof.
  unfold name_char, is_brace.
  destruct (c =? c_open)%N, (c =? c_close)%N, (c =? c_colon)%N,
    (c =? c_bang)%N, (c =? c_lbr)%N, (c =? c_dot)%N;
    simpl; intros H; try discriminate; repeat split.
Qed.

Lemma run_name cs : forall acc out tail,
  forallb name_char cs = true ->
  run kw (SName acc) out (cs ++ tail)
  = run kw (SName (rev_append cs acc)) out tail.
Proof.
  induction cs as [|c cs IH]; intros acc out tail H; [reflexivity|].
  simpl in H. apply andb_true_iff in H as [Hc H].
  destruct (name_char_inv c Hc) as (H1 & H2 & H3 & H4 & H5 & _).
  change (run kw (SName acc) out ((c :: cs) ++ tail))
    with (match step kw (SName acc) out c with
          | Return (st', o) => run kw st' o (cs ++ tail)
          | Raise e => Raise e
          end).
  unfold step, step_name. rewrite H1, H5, H2, H3, H4.
  now apply IH.
Qed.

Lemma run_spec cs : forall name conv acc out tail,
  brace_free cs = true ->
  run kw (SSpec name conv 1 acc) out (cs ++ tail)
  = run kw (SSpec name conv 1 (rev_append cs acc)) out tail.
Proof.
  induction cs as [|c cs IH]; intros name conv acc out tail H; [reflexivity|].
  unfold brace_free in H. simpl in H. apply andb_true_iff in H as [Hc H].
  apply negb_true_iff in Hc. unfold is_brace in Hc.
  apply orb_false_iff in Hc as [H1 H2].
  change (run kw (SSpec name conv 1 acc) out ((c :: cs) ++ tail))
    with (match step kw (SSpec name conv 1 acc) out c with
          | Return (st', o) => run kw st' o (cs ++ tail)
          | Raise e => Raise e
          end).
  unfold step. rewrite H1, H2. now apply IH.
Qed.

Lemma field_first_plain name :
  forallb name_char name = true -> field_first name = (name, []).
Proof.
  induction name as [|c t IH]; simpl; [reflexivity|].
  intros H. apply andb_true_iff in H as [Hc H].
  destruct (name_char_inv c Hc) as (_ & _ & _ & _ & H5 & H6).
  rewrite H6, H5, (IH H). reflexivity.
Qed.

(** A plain name is resolved among the keyword arguments, whatever the
    conversion and the format spec of the field. *)
Lemma render_plain name conv spec :
  plain_name name = true ->
  render_field kw name conv spec =
  match kw_get name kw with
  | None => Raise (KeyError name)
  | Some v =>
    match conv, spec with
    | None, [] => Return (float_repr v)
    | _, _ => format_field v [] conv spec
    end
  end.
Proof.
  unfold plain_name. intros H. apply andb_true_iff in H as [Hn Hd].
  unfold render_field. destruct name as [|c t]; [discriminate|].
  rewrite (field_first_plain (c :: t) Hn).
  destruct (get_integer (c :: t)); [reflexivity | discriminate..].
Qed.

(** Reading a field with a plain name, from its opening brace on. *)
Lemma run_field name out tail :
  plain_name name = true ->
  run kw SLit out (c_open :: name ++ tail)
  = run kw (SName (rev name)) out tail.
Proof.
  intros H. pose proof H as Hp.
  unfold plain_name in H. apply andb_true_iff in H as [Hn Hd].
  destruct name as [|c t]; [discriminate|].
  simpl in Hn. apply andb_true_iff in Hn as [Hc Hn].
  destruct (name_char_inv c Hc) as (H1 & H2 & H3 & H4 & H5 & _).
  change (run kw SLit out (c_open :: (c :: t) ++ tail))
    with (match step kw SOpen out c with
          | Return (st', o) => run kw st' o (t ++ tail)
          | Raise e => Raise e
          end).
  unfold step, step_name. rewrite H1, H5, H2, H3, H4.
  rewrite (run_name t [c] out tail Hn).
  rewrite rev_append_rev. reflexivity.
Qed.

End Format.

(** X22.  Stripping removes white space from the two ends and nothing
    else: the string is the stripped one between two runs of white space,
    and the stripped one has no white space at either end. *)
Theorem X22_strip_removes_white_space_only (s : pystr) :
  exists a b,
    s = a ++ strip s ++ b /\
    forallb isspace a = true /\ forallb isspace b = true /\
    trimmed (strip s).
Proof.
  destruct (strip_decompose s) as (a & b & Hd & Ha & Hb).
  exists a, b. repeat split; auto. apply strip_trimmed.
Qed.

(** The name of the stray field of the template is plain; a name written
    in digits of any script is an index, and too long a number is
    refused. *)
Example field_key_examples :
  plain_name (qlit "`text`") = true /\
  plain_name (lit "Temp") = true /\
  plain_name (lit "12") = false /\
  get_integer [0x663]%N = Positional 3 /\
  get_integer (lit "9223372036854775807") = Positional PY_SSIZE_T_MAX /\
  get_integer (lit "9223372036854775808") = TooManyDigits /\
  get_integer (lit "99999999999999999999a") = TooManyDigits /\
  get_integer (lit "12a") = Keyword.
Proof. repeat split; vm_compute; reflexivity. Qed.

(** X16.  Formatting substitutes: when the text before a field and the
    text after it format on their own, the whole formats to the first
    result, the [repr] of the value the field names, and the second
    result. *)
Theorem X16_format_substitutes_the_value
    (R : Runtime) (kw : kwargs) (pre name post s1 s2 : pystr) (v : pyfloat) :
  vformat pre kw = Return s1 ->
  plain_name name = true ->
  kw_get name kw = Some v ->
  vformat post kw = Return s2 ->
  vformat (pre ++ c_open :: name ++ c_close :: post) kw
  = Return (s1 ++ float_repr v ++ s2).
Proof.
  unfold vformat. intros H1 Hn Hv H2.
  rewrite (run_app kw pre SLit [] s1 _ H1).
  rewrite (run_field kw name (rev s1) (c_close :: post) Hn).
  change (run kw (SName (rev name)) (rev s1) (c_close :: post))
    with (match emit kw (rev name) None [] (rev s1) with
          | Return (st', o) => run kw st' o post
          | Raise e => Raise e
          end).
  unfold emit. rewrite rev_involutive. cbn [rev].
  rewrite (render_plain kw name None [] Hn), Hv. cbn [bind].
  pose proof (run_acc kw post SLit []
                (rev_append (float_repr v) (rev s1))) as Ha.
  cbn [app] in Ha. rewrite Ha, H2.
  rewrite rev_append_rev, rev_app_distr, !rev_involutive, <- app_assoc.
  reflexivity.
Qed.

Lemma X16_witness :
  @vformat Ref.RefRuntime
    (lit "Temperature: " ++ c_open :: lit "Temp" ++ c_close :: lit " C")
    [(lit "Temp", FFin false 51 (-1))]
  = Return (lit "Temperature: " ++ lit "25.5" ++ lit " C").
Proof.
  apply (X16_format_substitutes_the_value Ref.RefRuntime
           [(lit "Temp", FFin false 51 (-1))]
           (lit "Temperature: ") (lit "Temp") (lit " C")
           (lit "Temperature: ") (lit " C") (FFin false 51 (-1)));
    reflexivity.
Defined.

(** X17.  A replacement field whose name is not among the keyword
    arguments makes formatting raise KeyError with that name, with or
    without a format spec after the name, whatever text follows the field
    and although the text before it formats. *)
Theorem X17_unknown_field_name_raises_KeyError
    (R : Runtime) (kw : kwargs) (pre name post s1 : pystr)
    (spec : option pystr) :
  vformat pre kw = Return s1 ->
  plain_name name = true ->
  match spec with
  | Some sp => brace_free sp = true
  | None => True
  end ->
  kw_get name kw = None ->
  vformat (pre ++ c_open :: name
               ++ match spec with
                  | Some sp => c_colon :: sp
                  | None => []
                  end ++ c_close :: post) kw
  = Raise (KeyError name).
Proof.
  unfold vformat. intros H1 Hn Hs Hk.
  rewrite (run_app kw pre SLit [] s1 _ H1).
  rewrite (run_field kw name (rev s1) _ Hn).
  destruct spec as [sp|].
  - change (run kw (SName (rev name)) (rev s1)
              ((c_colon :: sp) ++ c_close :: post))
      with (run kw (SSpec (rev name) None 1 []) (rev s1)
              (sp ++ c_close :: post)).
    rewrite (run_spec kw sp (rev name) None [] (rev s1) _ Hs).
    change (run kw (SSpec (rev name) None 1 (rev_append sp [])) (rev s1)
              (c_close :: post))
      with (match emit kw (rev name) None (rev_append sp []) (rev s1) with
            | Return (st', o) => run kw st' o post
            | Raise e => Raise e
            end).
    unfold emit. rewrite rev_involutive.
    rewrite (render_plain kw name None _ Hn), Hk. reflexivity.
  - change (run kw (SName (rev name)) (rev s1) ([] ++ c_close :: post))
      with (match emit kw (rev name) None [] (rev s1) with
            | Return (st', o) => run kw st' o post
            | Raise e => Raise e
            end).
    unfold emit. rewrite rev_involutive.
    rewrite (render_plain kw name None _ Hn), Hk. reflexivity.
Qed.

(** The deployed template is such a text: the first of its JSON examples
    starts at character 1625 and ends at character 1836. *)
Lemma X17_witness :
  @vformat Ref.RefRuntime PROMPT_TEMPLATE
    [(lit "Temp", FFin false 25 0); (lit "Humid", FFin false 40 0);
     (lit "Proxy", FFin false 3 0)]
  = Raise (KeyError (qlit "`text`")).
Proof.
  change PROMPT_TEMPLATE
    with (firstn 1625 PROMPT_TEMPLATE
          ++ c_open :: qlit "`text`"
          ++ match Some (firstn 203 (skipn 1633 PROMPT_TEMPLATE)) with
             | Some sp => c_colon :: sp
             | None => []
             end ++ c_close :: skipn 1837 PROMPT_TEMPLATE).
  apply (X17_unknown_field_name_raises_KeyError Ref.RefRuntime
           [(lit "Temp", FFin false 25 0); (lit "Humid", FFin false 40 0);
            (lit "Proxy", FFin false 3 0)]
           (firstn 1625 PROMPT_TEMPLATE) (qlit "`text`")
           (skipn 1837 PROMPT_TEMPLATE)
           (match @vformat Ref.RefRuntime (firstn 1625 PROMPT_TEMPLATE)
                    [(lit "Temp", FFin false 25 0);
                     (lit "Humid", FFin false 40 0);
                     (lit "Proxy", FFin false 3 0)] with
            | Return s => s
            | Raise _ => []
            end)
           (Some (firstn 203 (skipn 1633 PROMPT_TEMPLATE))));
    vm_compute; reflexivity.
Defined.

(** X18.  Text in which every brace is written twice formats to the text
    with single braces, whatever the keyword arguments: no replacement
    field is read and nothing is raised. *)
Theorem X18_doubled_braces_format_to_the_text
    (R : Runtime) (kw : kwargs) (s : pystr) :
  vformat (Ref.double_braces s) kw = Return s.
Proof.
  unfold vformat.
  enough (H : forall out,
            run kw SLit out (Ref.double_braces s) = Return (rev out ++ s))
    by apply H.
  induction s as [|c s IH]; intros out.
  - simpl. now rewrite app_nil_r.
  - change (Ref.double_braces (c :: s))
      with ((if ((c =? c_open) || (c =? c_close))%N then [c; c] else [c])
            ++ Ref.double_braces s).
    destruct (c =? c_open)%N eqn:E1; [|destruct (c =? c_close)%N eqn:E2].
    + apply N.eqb_eq in E1. subst c.
      transitivity (run kw SLit (c_open :: out) (Ref.double_braces s));
        [reflexivity|].
      rewrite IH. simpl. now rewrite <- app_assoc.
    + apply N.eqb_eq in E2. subst c.
      transitivity (run kw SLit (c_close :: out) (Ref.double_braces s));
        [reflexivity|].
      rewrite IH. simpl. now rewrite <- app_assoc.
    + cbn [orb app].
      change (run kw SLit out (c :: Ref.double_braces s))
        with (match step kw SLit out c with
              | Return (st', o) => run kw st' o (Ref.double_braces s)
              | Raise e => Raise e
              end).
      unfold step. rewrite E1, E2. rewrite IH. simpl.
      now rewrite <- app_assoc.
Qed.

(* ===================================================================== *)
(** * The printed form of a row                                           *)
(* ===================================================================== *)

Lemma digits_fuel_value fuel : forall n acc,
  (n < 2 ^ N.of_nat fuel)%N ->
  fold_left (fun a c => (a * 10 + (c - 48))%N) (Ref.digits_fuel fuel n acc) 0%N
  = fold_left (fun a c => (a * 10 + (c - 48))%N) acc n.
Proof.
  induction fuel as [|f IH]; intros n acc Hn.
  - simpl in *. assert (n = 0%N) as -> by lia. reflexivity.
  - cbn [Ref.digits_fuel]. destruct (n <? 10)%N eqn:E.
    + apply N.ltb_lt in E. cbn [fold_left].
      rewrite N.mod_small by exact E. f_equal. lia.
    + apply N.ltb_ge in E. rewrite IH.
      * cbn [fold_left]. f_equal.
        rewrite (N.add_comm 48), N.add_sub, N.mul_comm.
        symmetry. apply N.div_mod'.
      * rewrite Nat2N.inj_succ, N.pow_succ_r' in Hn.
        apply N.Div0.div_lt_upper_bound. lia.
Qed.

Lemma digits_value n :
  fold_left (fun a c => (a * 10 + (c - 48))%N) (Ref.digits n) 0%N = n.
Proof.
  unfold Ref.digits. rewrite digits_fuel_value; [reflexivity|].
  rewrite Nat2N.inj_succ, N2Nat.id.
  destruct n as [|q]; [reflexivity|].
  apply N.log2_spec. reflexivity.
Qed.

Lemma digits_fuel_chars fuel : forall n acc,
  Forall (fun c => (48 <= c)%N) acc ->
  Forall (fun c => (48 <= c)%N) (Ref.digits_fuel fuel n acc).
Proof.
  induction fuel as [|f IH]; intros n acc H; [exact H|].
  cbn [Ref.digits_fuel].
  assert (H' : Forall (fun c => (48 <= c)%N) ((48 + n mod 10)%N :: acc))
    by (constructor; [apply N.le_add_r | exact H]).
  destruct (n <? 10)%N; [exact H' | now apply IH].
Qed.

Lemma str_of_Z_inj z1 z2 : Ref.str_of_Z z1 = Ref.str_of_Z z2 -> z1 = z2.
Proof.
  unfold Ref.str_of_Z.
  assert (Hd : forall a b, Ref.digits a = Ref.digits b -> a = b).
  { intros a b H. rewrite <- (digits_value a), <- (digits_value b).
    now rewrite H. }
  assert (Hm : forall a b, ch "-" :: Ref.digits a <> Ref.digits b).
  { intros a b H.
    pose proof (digits_fuel_chars (S (N.to_nat (N.log2 b))) b [] (Forall_nil _))
      as Hc.
    fold (Ref.digits b) in Hc. rewrite <- H in Hc.
    inversion Hc as [|? ? Hh _]; subst. vm_compute in Hh. now apply Hh. }
  destruct (z1 <? 0) eqn:E1, (z2 <? 0) eqn:E2; intros H.
  - injection H as H. apply Hd in H.
    apply Z.ltb_lt in E1, E2. lia.
  - exfalso. exact (Hm _ _ H).
  - exfalso. symmetry in H. exact (Hm _ _ H).
  - apply Hd in H. apply Z.ltb_ge in E1, E2. lia.
Qed.

(** X15.  The printed form of a row names its id and nothing else: two
    rows are printed alike exactly when they have the same id. *)
Theorem X15_repr_identifies_the_id (r1 r2 : Data) :
  Data_repr r1 = Data_repr r2 <-> id r1 = id r2.
Proof.
  unfold Data_repr. split; [|now intros ->].
  intros H. apply app_inv_head in H. apply app_inv_tail in H.
  now apply str_of_Z_inj.
Qed.

(** The rows of the table above are printed with their ids. *)
Example repr_three_rows :
  map Data_repr Ref.three_rows
  = [lit "<Data 2>"; lit "<Data 1>"; lit "<Data 3>"].
Proof. vm_compute. reflexivity. Qed.

(* ===================================================================== *)
(** * The application as deployed                                         *)
(* ===================================================================== *)

(** X19.  With the template as the repository has it, no sequence of
    calls from the empty table ever stores a row or yields a success
    response: every POST to /data fails before the model is asked. *)
Theorem X19_deployed_application_stores_nothing
    (R : Runtime) (cs : list Call) :
  snd (serve_all prompt cs []) = [] /\
  count is_success (fst (serve_all prompt cs [])) = 0%nat.
Proof.
  induction cs as [|c cs [IH1 IH2]]; [split; reflexivity|].
  cbn [serve_all].
  assert (Hs : exists r, serve prompt c [] = (r, []) /\ is_success r = false).
  { destruct c as [|now llm req].
    - eexists. split; reflexivity.
    - destruct (deployed_post_fails R now llm req []) as (e & He).
      rewrite He. eexists. split; [reflexivity|]. destruct e; reflexivity. }
  destruct Hs as (r & Hs & Hr). rewrite Hs.
  destruct (serve_all prompt cs []) as [rs db2]. cbn [fst snd] in *.
  split; [exact IH1|]. unfold count in *. cbn [filter]. now rewrite Hr.
Qed.

(** X20.  With the template as the repository has it, the model has no
    part in the answer to a POST to /data: the response and the table are
    the same whatever the model would do. *)
Theorem X20_deployed_response_does_not_depend_on_the_model
    (R : Runtime) (now : Z) (llm llm' : LLM) (req : Request) (db : Store) :
  serve prompt (POST_data now llm req) db
  = serve prompt (POST_data now llm' req) db.
Proof.
  rewrite !serve_post.
  assert (E : interpret prompt llm req = interpret prompt llm' req).
  { unfold interpret.
    destruct (get_json req) as [body|e]; cbn [bind]; [|reflexivity].
    destruct (getitem body (lit "Temp")) as [temp|e]; cbn [bind];
      [|reflexivity].
    destruct (getitem body (lit "Humid")) as [humid|e]; cbn [bind];
      [|reflexivity].
    destruct (getitem body (lit "Proxy")) as [proxy|e]; cbn [bind];
      [|reflexivity].
    now rewrite (deployed_report_ignores_model R llm llm' temp humid proxy). }
  rewrite E. reflexivity.
Qed.

(** X21.  With the template as the repository has it, every POST to /data
    whose body decodes is answered with the error page of status 500, for
    a KeyError, TypeError, ValueError or OverflowError, and leaves the
    table as it was. *)
Theorem X21_deployed_post_with_decoded_body_is_500
    (R : Runtime) (now : Z) (llm : LLM) (req : Request) (db : Store)
    (body : pyval) :
  get_json req = Return body ->
  exists e,
    input_error e /\
    serve prompt (POST_data now llm req) db = (ErrorPage 500 e, db).
Proof.
  intros Hb. rewrite serve_post.
  assert (Hi : exists e, input_error e /\ interpret prompt llm req = Raise e).
  { unfold interpret. rewrite Hb; cbn [bind].
    destruct (getitem body (lit "Temp")) as [temp|e1] eqn:E1; cbn [bind].
    2: { exists e1. split; [|reflexivity].
         destruct (getitem_exceptions _ _ _ E1) as [->| ->]; exact I. }
    destruct (getitem body (lit "Humid")) as [humid|e2] eqn:E2; cbn [bind].
    2: { exists e2. split; [|reflexivity].
         destruct (getitem_exceptions _ _ _ E2) as [->| ->]; exact I. }
    destruct (getitem body (lit "Proxy")) as [proxy|e3] eqn:E3; cbn [bind].
    2: { exists e3. split; [|reflexivity].
         destruct (getitem_exceptions _ _ _ E3) as [->| ->]; exact I. }
    assert (Hf : (exists t h x, py_float temp = Return t /\
                                py_float humid = Return h /\
                                py_float proxy = Return x)
                 \/ ((exists e, py_float temp = Raise e) \/
                     (exists e, py_float humid = Raise e) \/
                     (exists e, py_float proxy = Raise e))).
    { destruct (py_float temp) as [t|e]; [|right; left; eauto].
      destruct (py_float humid) as [h|e]; [|right; right; left; eauto].
      destruct (py_float proxy) as [x|e]; [|right; right; right; eauto].
      left. exists t, h, x. repeat split. }
    destruct Hf as [(t & h & x & Ht & Hh & Hx)|Hf].
    - rewrite (deployed_report_KeyError R llm temp humid proxy t h x Ht Hh Hx).
      exists (KeyError (qlit "`text`")). split; [exact I | reflexivity].
    - destruct (report_float_failure R prompt llm temp humid proxy Hf)
        as (e & Hr & _ & Hc).
      rewrite Hr; cbn [bind]. exists e. split; [|reflexivity].
      destruct Hc as [Hc|[Hc|Hc]]; eapply py_float_input_error; eauto. }
  destruct Hi as (e & He & Hi). rewrite Hi. exists e. split; [exact He|].
  now rewrite input_error_500.
Qed.

(** The first end-to-end scenario and a body without Proxy. *)
Lemma X21_witness :
  (exists e,
     input_error e /\
     @serve Ref.RefRuntime (@prompt Ref.RefRuntime)
       (POST_data 7 (Ref.llm_answers Ref.answer_mild)
          (@json_request Ref.RefRuntime Ref.body_25_40_3)) Ref.three_rows
     = (ErrorPage 500 e, Ref.three_rows)) /\
  @serve Ref.RefRuntime (@prompt Ref.RefRuntime)
    (POST_data 7 Ref.llm_down
       (@json_request Ref.RefRuntime Ref.body_no_proxy)) Ref.three_rows
  = (ErrorPage 500 (KeyError (lit "Proxy")), Ref.three_rows).
Proof.
  split; [|vm_compute; reflexivity].
  apply (X21_deployed_post_with_decoded_body_is_500 Ref.RefRuntime 7
           (Ref.llm_answers Ref.answer_mild)
           (@json_request Ref.RefRuntime Ref.body_25_40_3) Ref.three_rows
           (PDict [(lit "Temp", PInt 25); (lit "Humid", PInt 40);
                   (lit "Proxy", PInt 3)])).
  vm_compute. reflexivity.
Defined.
